(** * feed_filter: the recording extension's coordinator and capture worker

  A shallow embedding of [extension/background.js] (the service worker
  that owns the recording session) and [extension/offscreen.js] (the
  offscreen document that owns the MediaRecorder), with the properties
  the specification states about them.

  Conventions of the embedding:
  - JavaScript values that cross a context boundary (message replies, the
    JSON a server returns) are terms of [JS.value]; object literals are
    ordered property lists, as in the language.
  - [Date.now()] readings and tab identifiers are integers ([Z]).
  - Every call into the browser that the source awaits has its outcome
    supplied by an environment record: a promise either resolves with a
    value or rejects with an error message.
  - An [async] function body is a computation in a state monad with
    exceptions; a thrown error keeps the mutations made before it, as in
    the language.  Each command runs to completion before the next one
    (the extension's popup issues them one at a time). *)

From Stdlib Require Import ZArith List String Ascii Bool Lia DecimalString.
From Stdlib Require DecimalPos DecimalZ.
Import ListNotations.

Set Warnings "-register-all".

Open Scope string_scope.
Open Scope Z_scope.

(* ------------------------------------------------------------------ *)
(** ** JavaScript values *)

Module JS.

Inductive value : Type :=
| VUndefined
| VNull
| VBool (b : bool)
| VNum (n : Z)
| VStr (s : string)
| VArr (xs : list value)
| VObj (props : list (string * value)).

(** ToBoolean. *)
Definition truthy (v : value) : bool :=
  match v with
  | VUndefined | VNull => false
  | VBool b => b
  | VNum n => negb (n =? 0)
  | VStr s => negb (s =? "")%string
  | VArr _ | VObj _ => true
  end.

(** Template-literal rendering of an integer, [`${n}`]. *)
Definition num_to_string (n : Z) : string :=
  NilZero.string_of_int (Z.to_int n).

Definition index_to_string (i : nat) : string :=
  NilZero.string_of_uint (Nat.to_uint i).

(** Own property of a property list. *)
Fixpoint lookup (k : string) (props : list (string * value)) : option value :=
  match props with
  | [] => None
  | (k', v) :: rest => if (k =? k')%string then Some v else lookup k rest
  end.

(** [o[k] = v] on a property list: an existing key keeps its position. *)
Fixpoint obj_set (k : string) (v : value) (props : list (string * value))
  : list (string * value) :=
  match props with
  | [] => [(k, v)]
  | (k', v') :: rest =>
      if (k =? k')%string then (k, v) :: rest
      else (k', v') :: obj_set k v rest
  end.

Fixpoint indexed {A : Type} (i : nat) (xs : list A) : list (string * A) :=
  match xs with
  | [] => []
  | x :: rest => (index_to_string i, x) :: indexed (S i) rest
  end.

Fixpoint chars (s : string) : list value :=
  match s with
  | EmptyString => []
  | String c rest => VStr (String c EmptyString) :: chars rest
  end.

(** The own enumerable properties that an object spread copies. *)
Definition own_props (v : value) : list (string * value) :=
  match v with
  | VObj props => props
  | VArr xs => indexed 0 xs
  | VStr s => indexed 0 (chars s)
  | VUndefined | VNull | VBool _ | VNum _ => []
  end.

(** [{ ...target, ...src }] where [target] is the literal built so far.
    The properties of the result are listed in the order in which they
    were created; names that are array indices, which JavaScript
    enumerates ahead of the others, are not moved to the front. *)
Definition spread (target : list (string * value)) (src : value)
  : list (string * value) :=
  fold_left (fun acc kv => obj_set (fst kv) (snd kv) acc) (own_props src) target.

(** The value read by [v.k]. *)
Definition prop (v : value) (k : string) : value :=
  match v with
  | VObj props => match lookup k props with Some x => x | None => VUndefined end
  | _ => VUndefined
  end.

(** [null] for an absent number, as the session fields hold it. *)
Definition of_option_num (o : option Z) : value :=
  match o with Some n => VNum n | None => VNull end.

End JS.

(* ------------------------------------------------------------------ *)
(** ** Promises and async bodies *)

(** How an awaited promise settles. *)
Inductive outcome (A : Type) : Type :=
| Resolved (a : A)
| Rejected (message : string).
Arguments Resolved {A} a.
Arguments Rejected {A} message.

(** How a statement list completes: normally, or by a thrown error whose
  [message] the handlers read. *)
Inductive completion (A : Type) : Type :=
| Normal (a : A)
| Throw (message : string).
Arguments Normal {A} a.
Arguments Throw {A} message.

Module Async.

Definition M (S A : Type) : Type := S -> completion A * S.

Definition ret {S A} (a : A) : M S A := fun s => (Normal a, s).

Definition bind {S A B} (m : M S A) (k : A -> M S B) : M S B :=
  fun s =>
    match m s with
    | (Normal a, s') => k a s'
    | (Throw e, s') => (Throw e, s')
    end.

Definition throw {S A} (e : string) : M S A := fun s => (Throw e, s).

(** [try { body } catch (error) { handler(error.message) }]. *)
Definition try_catch {S A} (body : M S A) (handler : string -> M S A) : M S A :=
  fun s =>
    match body s with
    | (Normal a, s') => (Normal a, s')
    | (Throw e, s') => handler e s'
    end.

Definition gets {S A} (f : S -> A) : M S A := fun s => (Normal (f s), s).

Definition modify {S} (f : S -> S) : M S unit := fun s => (Normal tt, f s).

(** [await p]: the value the promise resolved with, or its rejection
    rethrown. *)
Definition await {S A} (p : outcome A) : M S A :=
  match p with
  | Resolved a => ret a
  | Rejected e => throw e
  end.

(** An awaited call that yields nothing and can only fault. *)
Definition await_unit {S} (fault : option string) : M S unit :=
  match fault with
  | None => ret tt
  | Some e => throw e
  end.

(** [v.k] as an expression: reading a property of [undefined] or [null]
    throws a TypeError. *)
Definition read_prop {S} (v : JS.value) (k : string) : M S JS.value :=
  match v with
  | JS.VUndefined =>
      throw ("Cannot read properties of undefined (reading '" ++ k ++ "')")
  | JS.VNull =>
      throw ("Cannot read properties of null (reading '" ++ k ++ "')")
  | _ => ret (JS.prop v k)
  end.

Definition when {S} (b : bool) (m : M S unit) : M S unit :=
  if b then m else ret tt.

End Async.

Declare Scope async_scope.
Delimit Scope async_scope with async.
Notation "x <- m ;; k" := (Async.bind m (fun x => k))
  (at level 61, m at next level, right associativity) : async_scope.
Notation "m ;; k" := (Async.bind m (fun _ => k))
  (at level 61, right associativity) : async_scope.

(** The two result literals both scripts build by hand. *)
Definition failure (error : string) : JS.value :=
  JS.VObj [("success", JS.VBool false); ("error", JS.VStr error)].

Definition success_only : JS.value :=
  JS.VObj [("success", JS.VBool true)].

(* ------------------------------------------------------------------ *)
(** ** background.js: the session coordinator *)

Module Background.
Import Async.
Local Open Scope async_scope.

(** The three module-level variables. *)
Record Session : Type := mkSession {
  isRecording : bool;
  recordingTabId : option Z;
  startTime : option Z
}.

(** What the service worker can touch: its variables, the toolbar badge,
    whether the offscreen document exists, and the messages it has sent. *)
Record World : Type := mkWorld {
  session : Session;
  badgeText : string;
  badgeBackgroundColor : string;
  offscreenDocument : bool;
  sent : list JS.value
}.

Definition idle : Session := mkSession false None None.

Definition initial : World := mkWorld idle "" "" false [].

(** Outcomes of the browser calls made while one message is handled. *)
Record Env : Type := mkEnv {
  now : Z;                                  (* Date.now() *)
  getMediaStreamId : outcome string;        (* chrome.tabCapture.getMediaStreamId *)
  getContexts_fault : option string;        (* chrome.runtime.getContexts *)
  createDocument_fault : option string;     (* chrome.offscreen.createDocument *)
  closeDocument_fault : option string;      (* chrome.offscreen.closeDocument *)
  reply : outcome JS.value                  (* chrome.runtime.sendMessage, awaited *)
}.

Definition set_session (s : Session) (w : World) : World :=
  mkWorld s (badgeText w) (badgeBackgroundColor w) (offscreenDocument w) (sent w).

Definition setBadgeText (text : string) (w : World) : World :=
  mkWorld (session w) text (badgeBackgroundColor w) (offscreenDocument w) (sent w).

Definition setBadgeBackgroundColor (color : string) (w : World) : World :=
  mkWorld (session w) (badgeText w) color (offscreenDocument w) (sent w).

Definition set_offscreenDocument (b : bool) (w : World) : World :=
  mkWorld (session w) (badgeText w) (badgeBackgroundColor w) b (sent w).

Definition post (message : JS.value) (w : World) : World :=
  mkWorld (session w) (badgeText w) (badgeBackgroundColor w)
          (offscreenDocument w) (sent w ++ [message]).

(** [chrome.runtime.getContexts({contextTypes: ['OFFSCREEN_DOCUMENT']})]:
    one context when the document exists, none otherwise. *)
Definition getContexts (env : Env) : M World (list unit) :=
  await_unit (getContexts_fault env) ;;
  gets (fun w => if offscreenDocument w then [tt] else []).

Definition createOffscreenDocument (env : Env) : M World unit :=
  existingContexts <- getContexts env ;;
  if (0 <? Z.of_nat (List.length existingContexts))
  then ret tt
  else
    await_unit (createDocument_fault env) ;;
    modify (set_offscreenDocument true).

Definition closeOffscreenDocument (env : Env) : M World unit :=
  existingContexts <- getContexts env ;;
  when (0 <? Z.of_nat (List.length existingContexts))
    (await_unit (closeDocument_fault env) ;;
     modify (set_offscreenDocument false)).

(** [chrome.runtime.sendMessage(message)], awaited. *)
Definition sendMessage (message : JS.value) (env : Env) : M World JS.value :=
  modify (post message) ;;
  await (reply env).

Definition startCapture_message (streamId : string) : JS.value :=
  JS.VObj [("action", JS.VStr "startCapture");
           ("target", JS.VStr "offscreen");
           ("streamId", JS.VStr streamId)].

Definition stopCapture_message (backendUrl : string) : JS.value :=
  JS.VObj [("action", JS.VStr "stopCapture");
           ("target", JS.VStr "offscreen");
           ("backendUrl", JS.VStr backendUrl)].

Definition startRecording (tabId : Z) (env : Env) : M World JS.value :=
  s <- gets session ;;
  if isRecording s then ret (failure "Already recording")
  else
    try_catch
      (streamId <- await (getMediaStreamId env) ;;
       createOffscreenDocument env ;;
       response <- sendMessage (startCapture_message streamId) env ;;
       ok <- read_prop response "success" ;;
       when (JS.truthy ok)
         (modify (set_session (mkSession true (Some tabId) (Some (now env)))) ;;
          modify (setBadgeText "REC") ;;
          modify (setBadgeBackgroundColor "#e74c3c")) ;;
       ret response)
      (fun message => ret (failure message)).

Definition stopRecording (backendUrl : string) (env : Env) : M World JS.value :=
  s <- gets session ;;
  if negb (isRecording s) then ret (failure "Not recording")
  else
    try_catch
      (response <- sendMessage (stopCapture_message backendUrl) env ;;
       modify (set_session (mkSession false None None)) ;;
       modify (setBadgeText "") ;;
       closeOffscreenDocument env ;;
       ret response)
      (fun message => ret (failure message)).

(** [startTime ? Math.floor((Date.now() - startTime) / 1000) : 0]; the
    test is on the truthiness of [startTime], so both [null] and the
    number 0 take the second branch. *)
Definition elapsed (s : Session) (now : Z) : Z :=
  if JS.truthy (JS.of_option_num (startTime s))
  then match startTime s with
       | Some t => (now - t) / 1000
       | None => 0
       end
  else 0.

Definition getStatus (env : Env) : M World JS.value :=
  s <- gets session ;;
  ret (JS.VObj [("isRecording", JS.VBool (isRecording s));
                ("recordingTabId", JS.of_option_num (recordingTabId s));
                ("startTime", JS.of_option_num (startTime s));
                ("elapsed", JS.VNum (elapsed s (now env)))]).

(** The messages the listener tells apart. *)
Inductive Message : Type :=
| ForOffscreen                       (* message.target === 'offscreen' *)
| GetStatus
| StartRecording (tabId : Z)
| StopRecording (backendUrl : string)
| Other.                             (* any other action *)

(** The [onMessage] listener: the response it sends, if it sends one.
    The functions it calls never reject, so a response always follows. *)
Definition onMessage (message : Message) (env : Env) (w : World)
  : option JS.value * World :=
  let respond (m : M World JS.value) :=
    match m w with
    | (Normal r, w') => (Some r, w')
    | (Throw _, w') => (None, w')
    end in
  match message with
  | ForOffscreen => (None, w)
  | GetStatus => respond (getStatus env)
  | StartRecording tabId => respond (startRecording tabId env)
  | StopRecording backendUrl => respond (stopRecording backendUrl env)
  | Other => (None, w)
  end.

(** The world after a sequence of messages, each with its environment. *)
Fixpoint run (script : list (Message * Env)) (w : World) : World :=
  match script with
  | [] => w
  | (message, env) :: rest => run rest (snd (onMessage message env w))
  end.

Definition reachable (w : World) : Prop :=
  exists script, run script initial = w.

(** The session invariant of the data model. *)
Definition session_ok (s : Session) : Prop :=
  (isRecording s = true <-> recordingTabId s <> None) /\
  (isRecording s = true <-> startTime s <> None).

(** Whether the caller was told that the command succeeded. *)
Definition succeeded (response : option JS.value) : bool :=
  match response with
  | Some r => JS.truthy (JS.prop r "success")
  | None => false
  end.

(** The number of sessions the variables hold: one or none. *)
Definition recording_count (w : World) : Z :=
  if isRecording (session w) then 1 else 0.

(** The session ledger of the data model's lifecycle: a session is created
    by a [startRecording] that reports success and destroyed by a
    [stopRecording] that clears the fields.  [live_sessions script w] is
    the number created minus the number destroyed while [script] runs
    from [w]. *)
Fixpoint live_sessions (script : list (Message * Env)) (w : World) : Z :=
  match script with
  | [] => 0
  | (message, env) :: rest =>
      let (response, w') := onMessage message env w in
      let delta :=
        match message with
        | StartRecording _ => if succeeded response then 1 else 0
        | StopRecording _ =>
            if isRecording (session w) && negb (isRecording (session w'))
            then -1 else 0
        | _ => 0
        end in
      delta + live_sessions rest w'
  end.

(** The two shapes a session takes in any world the listener can produce. *)
Definition well_formed (s : Session) : Prop :=
  s = idle \/ exists tabId t, s = mkSession true (Some tabId) (Some t).

(** An environment in which no browser call faults: the clock reads
    [now] and the delegated message settles as [reply]. *)
Definition calm (now : Z) (reply : outcome JS.value) : Env :=
  mkEnv now (Resolved "stream-1") None None None reply.

(** The world after one successful [startRecording] of tab 7 at time
    [now], from the initial world. *)
Definition recording_since (now : Z) : World :=
  run [(StartRecording 7, calm now (Resolved success_only))] initial.

(** The messages by which the two membership errors are reported. *)
Definition AlreadyActive : string := "Already recording".
Definition NotActive : string := "Not recording".

(** The ways [startRecording] can fail once it is past the membership
    test, each with the error message it leads to: a rejected stream-id
    request, a fault while the offscreen document is ensured, a rejected
    or missing reply, and a reply by which the worker reports failure. *)
Inductive start_failure (env : Env) (w : World) : string -> Prop :=
| stream_id_rejected (e : string) :
    getMediaStreamId env = Rejected e ->
    start_failure env w e
| contexts_query_faulted (streamId e : string) :
    getMediaStreamId env = Resolved streamId ->
    getContexts_fault env = Some e ->
    start_failure env w e
| document_creation_faulted (streamId e : string) :
    getMediaStreamId env = Resolved streamId ->
    getContexts_fault env = None ->
    offscreenDocument w = false ->
    createDocument_fault env = Some e ->
    start_failure env w e
| delegation_rejected (streamId e : string) :
    getMediaStreamId env = Resolved streamId ->
    getContexts_fault env = None ->
    (offscreenDocument w = false -> createDocument_fault env = None) ->
    reply env = Rejected e ->
    start_failure env w e
| no_reply (streamId : string) :
    getMediaStreamId env = Resolved streamId ->
    getContexts_fault env = None ->
    (offscreenDocument w = false -> createDocument_fault env = None) ->
    reply env = Resolved JS.VUndefined ->
    start_failure env w "Cannot read properties of undefined (reading 'success')"
| worker_reported_failure (streamId e : string) :
    getMediaStreamId env = Resolved streamId ->
    getContexts_fault env = None ->
    (offscreenDocument w = false -> createDocument_fault env = None) ->
    reply env = Resolved (failure e) ->
    start_failure env w e.

End Background.

(* ------------------------------------------------------------------ *)
(** ** offscreen.js: the capture worker *)

Module Offscreen.
Import Async.
Local Open Scope async_scope.

(** A Blob: its bytes and its MIME type.  The chunks a MediaRecorder
    delivers are Blobs, and so is the finished recording. *)
Record Blob : Type := mkBlob {
  payload : list Byte.byte;
  type : string
}.

Definition size (b : Blob) : Z := Z.of_nat (List.length (payload b)).

(** [new Blob(parts, { type })]: the parts' bytes, in order. *)
Definition new_Blob (parts : list Blob) (type : string) : Blob :=
  mkBlob (List.concat (map payload parts)) type.

Record MediaStream : Type := mkMediaStream {
  stream_source : string;            (* chromeMediaSourceId *)
  getTracks : list nat               (* the tracks, by identity *)
}.

Inductive RecordingState : Type := inactive | recording | paused.

Record MediaRecorder : Type := mkMediaRecorder {
  stream : MediaStream;
  mimeType : string;
  state : RecordingState
}.

Record FormField : Type := mkFormField {
  field_name : string;
  field_value : Blob;
  field_filename : string
}.

Record Request : Type := mkRequest {
  request_url : string;
  request_method : string;
  request_body : list FormField      (* a FormData body: multipart/form-data *)
}.

Record Response : Type := mkResponse {
  ok : bool;
  status : Z;
  json : outcome JS.value            (* response.json() *)
}.

(** What the worker does to the outside, in the order it does it. *)
Inductive Event : Type :=
| RecorderStarted (timeslice : Z)        (* mediaRecorder.start(timeslice) *)
| RecorderStopped                        (* mediaRecorder.stop() *)
| TrackStopped (track : nat)             (* track.stop() *)
| Fetched (request : Request)            (* fetch(url, init) *)
| ObjectURLCreated (blob : Blob) (url : string)
| MessageSent (message : JS.value).      (* chrome.runtime.sendMessage, not awaited *)

(** The three module-level variables, and the trace of effects. *)
Record Worker : Type := mkWorker {
  mediaRecorder : option MediaRecorder;
  recordedChunks : list Blob;
  mediaStream : option MediaStream;
  log : list Event
}.

Definition initial : Worker := mkWorker None [] None [].

Record Env : Type := mkEnv {
  getUserMedia : outcome MediaStream;     (* navigator.mediaDevices.getUserMedia *)
  new_MediaRecorder_fault : option string;(* e.g. an unsupported mimeType *)
  start_fault : option string;            (* mediaRecorder.start *)
  last_chunk : Blob;                      (* the dataavailable event stop() fires *)
  now_upload : Z;                         (* Date.now() in the try block *)
  fetch_result : outcome Response;        (* fetch *)
  now_fallback : Z;                       (* Date.now() in the catch block *)
  createObjectURL : string;               (* URL.createObjectURL(blob) *)
  notification_settles : outcome JS.value (* the promise nobody awaits *)
}.

Definition set_mediaRecorder (r : option MediaRecorder) (w : Worker) : Worker :=
  mkWorker r (recordedChunks w) (mediaStream w) (log w).

Definition set_recordedChunks (chunks : list Blob) (w : Worker) : Worker :=
  mkWorker (mediaRecorder w) chunks (mediaStream w) (log w).

Definition set_mediaStream (s : option MediaStream) (w : Worker) : Worker :=
  mkWorker (mediaRecorder w) (recordedChunks w) s (log w).

Definition emit (events : list Event) (w : Worker) : Worker :=
  mkWorker (mediaRecorder w) (recordedChunks w) (mediaStream w) (log w ++ events).

Definition set_state (st : RecordingState) (r : MediaRecorder) : MediaRecorder :=
  mkMediaRecorder (stream r) (mimeType r) st.

(** The [ondataavailable] handler every recorder is given. *)
Definition ondataavailable (data : Blob) : M Worker unit :=
  when (0 <? size data)
    (modify (fun w => set_recordedChunks (recordedChunks w ++ [data]) w)).

Definition startCapture (streamId : string) (env : Env) : M Worker JS.value :=
  try_catch
    (s <- await (getUserMedia env) ;;
     modify (set_mediaStream (Some s)) ;;
     modify (set_recordedChunks []) ;;
     await_unit (new_MediaRecorder_fault env) ;;
     modify (set_mediaRecorder
               (Some (mkMediaRecorder s "video/webm;codecs=vp9" inactive))) ;;
     await_unit (start_fault env) ;;
     modify (fun w => set_mediaRecorder
                        (option_map (set_state recording) (mediaRecorder w)) w) ;;
     modify (emit [RecorderStarted 1000]) ;;
     ret success_only)
    (fun message => ret (failure message)).

(** [backendUrl.replace(/\/$/, '')]: one slash is dropped when it is the
    last character. *)
Fixpoint strip_trailing_slash (s : string) : string :=
  match s with
  | EmptyString => EmptyString
  | String c rest =>
      match rest with
      | EmptyString => if (c =? "/")%char then EmptyString else s
      | String _ _ => String c (strip_trailing_slash rest)
      end
  end.

Definition upload_filename (now : Z) : string :=
  "recording_" ++ JS.num_to_string now ++ ".webm".

Definition fallback_filename (now : Z) : string :=
  "linkedin_recording_" ++ JS.num_to_string now ++ ".webm".

Definition downloadFallback_message (url filename : string) : JS.value :=
  JS.VObj [("action", JS.VStr "downloadFallback");
           ("url", JS.VStr url);
           ("filename", JS.VStr filename)].

Definition saved_locally (error : string) : JS.value :=
  JS.VObj [("success", JS.VBool false);
           ("error", JS.VStr error);
           ("savedLocally", JS.VBool true)].

Definition uploadRecording (blob : Blob) (backendUrl : string) (env : Env)
  : M Worker JS.value :=
  let url := strip_trailing_slash backendUrl in
  try_catch
    (let formData := [mkFormField "video" blob (upload_filename (now_upload env))] in
     modify (emit [Fetched (mkRequest (url ++ "/upload") "POST" formData)]) ;;
     response <- await (fetch_result env) ;;
     when (negb (ok response))
       (throw ("Upload failed: " ++ JS.num_to_string (status response))) ;;
     result <- await (json response) ;;
     ret (JS.VObj (JS.spread [("success", JS.VBool true)] result)))
    (fun message =>
       let downloadUrl := createObjectURL env in
       modify (emit [ObjectURLCreated blob downloadUrl]) ;;
       modify (emit [MessageSent
                       (downloadFallback_message downloadUrl
                          (fallback_filename (now_fallback env)))]) ;;
       ret (saved_locally message)).

(** The [onstop] handler that [stopCapture] installs. *)
Definition onstop (backendUrl : string) (env : Env) : M Worker JS.value :=
  s <- gets mediaStream ;;
  match s with
  | Some s => modify (emit (map TrackStopped (getTracks s)))
  | None => ret tt
  end ;;
  chunks <- gets recordedChunks ;;
  let blob := new_Blob chunks "video/webm" in
  uploadRecording blob backendUrl env.

(** Whether [stopCapture] goes past its first test. *)
Definition capturing (w : Worker) : bool :=
  match mediaRecorder w with
  | None => false
  | Some r => match state r with inactive => false | _ => true end
  end.

(** [mediaRecorder.stop()] makes the recorder inactive, then fires
    [dataavailable] with the data not yet delivered, then fires [stop];
    the promise [stopCapture] returns resolves with what [onstop] passes
    to [resolve]. *)
Definition stopCapture (backendUrl : string) (env : Env) : M Worker JS.value :=
  active <- gets capturing ;;
  if negb active then ret (failure "No active recording")
  else
    modify (fun w => set_mediaRecorder
                       (option_map (set_state inactive) (mediaRecorder w)) w) ;;
    modify (emit [RecorderStopped]) ;;
    ondataavailable (last_chunk env) ;;
    onstop backendUrl env.

(** What reaches the worker: the two commands, messages for somebody
    else, and the recorder's periodic [dataavailable] events. *)
Inductive Input : Type :=
| NotForOffscreen                   (* message.target !== 'offscreen' *)
| StartCapture (streamId : string)
| StopCapture (backendUrl : string)
| OtherAction
| DataAvailable (data : Blob).

Definition handle (input : Input) (env : Env) (w : Worker)
  : option JS.value * Worker :=
  let respond (m : M Worker JS.value) :=
    match m w with
    | (Normal r, w') => (Some r, w')
    | (Throw _, w') => (None, w')
    end in
  match input with
  | NotForOffscreen => (None, w)
  | StartCapture streamId => respond (startCapture streamId env)
  | StopCapture backendUrl => respond (stopCapture backendUrl env)
  | OtherAction => (None, w)
  | DataAvailable data => (None, snd (ondataavailable data w))
  end.

Fixpoint run (script : list (Input * Env)) (w : Worker) : Worker :=
  match script with
  | [] => w
  | (input, env) :: rest => run rest (snd (handle input env w))
  end.

Definition reachable (w : Worker) : Prop :=
  exists script, run script initial = w.

(** Delivery of the periodic chunks of one capture, in production order. *)
Definition deliver (chunks : list Blob) (w : Worker) : Worker :=
  fold_left (fun w data => snd (ondataavailable data w)) chunks w.

Definition nonempty (b : Blob) : bool := 0 <? size b.

(** The Blobs handed to [fetch] as form fields, in order. *)
Definition uploaded (events : list Event) : list Blob :=
  flat_map (fun e => match e with
                     | Fetched request => map field_value (request_body request)
                     | _ => []
                     end) events.

Definition is_TrackStopped (e : Event) : bool :=
  match e with TrackStopped _ => true | _ => false end.

Definition is_Fetched (e : Event) : bool :=
  match e with Fetched _ => true | _ => false end.

(** The chunk buffer once the event fired by [stop()] has been handled. *)
Definition flushed (w : Worker) (env : Env) : list Blob :=
  (recordedChunks w ++ filter nonempty [last_chunk env])%list.

(** The [track.stop()] calls of the [onstop] handler. *)
Definition stopped_tracks (w : Worker) : list Event :=
  match mediaStream w with
  | Some s => map TrackStopped (getTracks s)
  | None => []
  end.

(** What holds of the worker's variables whatever it has been sent: the
    buffer holds no empty chunk, and a recorder is never held without a
    stream. *)
Definition worker_ok (w : Worker) : Prop :=
  Forall (fun b => 0 < size b) (recordedChunks w) /\
  (mediaRecorder w <> None -> mediaStream w <> None).

(** The message by which [stopCapture] reports that nothing is captured. *)
Definition NotCapturing : string := "No active recording".

(** The ways the upload can fail, each with the error message the catch
    block receives: [fetch] rejects, the response has a non-success
    status, or reading the body as JSON throws. *)
Inductive upload_failure (env : Env) : string -> Prop :=
| network_fault (e : string) :
    fetch_result env = Rejected e ->
    upload_failure env e
| failure_status (response : Response) :
    fetch_result env = Resolved response ->
    ok response = false ->
    upload_failure env ("Upload failed: " ++ JS.num_to_string (status response))
| local_exception (response : Response) (e : string) :
    fetch_result env = Resolved response ->
    ok response = true ->
    json response = Rejected e ->
    upload_failure env e.

(** The same environment, except for how the notification's promise
    settles. *)
Definition with_notification (o : outcome JS.value) (env : Env) : Env :=
  mkEnv (getUserMedia env) (new_MediaRecorder_fault env) (start_fault env)
        (last_chunk env) (now_upload env) (fetch_result env)
        (now_fallback env) (createObjectURL env) o.

(** Sample data for the examples. *)
Definition tab_stream : MediaStream := mkMediaStream "stream-1" [0%nat; 1%nat].

Definition chunk (bytes : list Byte.byte) : Blob := mkBlob bytes "video/webm;codecs=vp9".

Definition server_ok : Response :=
  mkResponse true 200
    (Resolved (JS.VObj [("filename", JS.VStr "recording_1.webm")])).

Definition server_error : Response :=
  mkResponse false 500 (Resolved (JS.VObj [])).

Definition sample_env (last : Blob) (response : outcome Response) : Env :=
  mkEnv (Resolved tab_stream) None None last 5000 response 5001
        "blob:chrome-extension://feed-filter/1" (Rejected "no receiver").

(** The worker after one successful [startCapture], from the initial one. *)
Definition capturing_worker : Worker :=
  run [(StartCapture "stream-1", sample_env (chunk []) (Resolved server_ok))]
      initial.

End Offscreen.

(* ------------------------------------------------------------------ *)
(** ** Counting the worker's effects *)

Module Trace.
Import Offscreen.

Definition is_RecorderStarted (e : Event) : bool :=
  match e with RecorderStarted _ => true | _ => false end.

Definition is_RecorderStopped (e : Event) : bool :=
  match e with RecorderStopped => true | _ => false end.

Definition is_ObjectURLCreated (e : Event) : bool :=
  match e with ObjectURLCreated _ _ => true | _ => false end.

Definition is_MessageSent (e : Event) : bool :=
  match e with MessageSent _ => true | _ => false end.

(** How many events of a kind a trace holds. *)
Definition count (kind : Event -> bool) (events : list Event) : nat :=
  List.length (filter kind events).

(** The bytes of all the chunks of a list, sizes added up. *)
Definition total_size (chunks : list Blob) : Z :=
  fold_right (fun b acc => size b + acc) 0 chunks.

(** The balance the worker's trace keeps. *)
Definition balanced (w : Worker) : Prop :=
  count is_Fetched (log w) = count is_RecorderStopped (log w) /\
  count is_ObjectURLCreated (log w) = count is_MessageSent (log w) /\
  (count is_MessageSent (log w) <= count is_Fetched (log w))%nat /\
  (count is_RecorderStopped (log w) + (if capturing w then 1 else 0)
   <= count is_RecorderStarted (log w))%nat.

(** The keys of a property list. *)
Definition keys (props : list (string * JS.value)) : list string :=
  map fst props.

Definition is_not_key (k : string) (kv : string * JS.value) : bool :=
  negb (fst kv =? k)%string.

(** Property names written with decimal digits only.  Every array index
    (the canonical decimal form of an integer from 0 to 2^32 - 2) is
    such a name; JavaScript enumerates the array-index properties of an
    object first and in ascending numeric order, before the other names,
    which come in the order they were created. *)
Definition is_digit (c : ascii) : bool :=
  ((48 <=? N_of_ascii c) && (N_of_ascii c <=? 57))%N.

Fixpoint only_digits (s : string) : bool :=
  match s with
  | EmptyString => true
  | String c rest => is_digit c && only_digits rest
  end.

Definition index_like (k : string) : bool :=
  negb (k =? "")%string && only_digits k.

(** No property of the list is named like an array index, so the order
    of the list is the order in which JavaScript enumerates it. *)
Definition enumerated_as_listed (props : list (string * JS.value)) : bool :=
  forallb (fun k => negb (index_like k)) (keys props).

End Trace.

(* ------------------------------------------------------------------ *)
(** ** popup.js: the recording tab of the popup *)

Module Popup.
Import Async.
Local Open Scope async_scope.

(** ToString, as a template literal applies it. *)
Fixpoint toString (v : JS.value) : string :=
  match v with
  | JS.VUndefined => "undefined"
  | JS.VNull => "null"
  | JS.VBool true => "true"
  | JS.VBool false => "false"
  | JS.VNum n => JS.num_to_string n
  | JS.VStr s => s
  | JS.VArr xs =>
      String.concat ","
        (map (fun x => match x with
                       | JS.VUndefined | JS.VNull => ""
                       | _ => toString x
                       end) xs)
  | JS.VObj _ => "[object Object]"
  end.

Fixpoint replicate (n : nat) (c : ascii) : string :=
  match n with
  | O => EmptyString
  | S n' => String c (replicate n' c)
  end.

(** [s.padStart(targetLength, c)] for a one-character filler. *)
Definition padStart (targetLength : nat) (c : ascii) (s : string) : string :=
  replicate (targetLength - String.length s) c ++ s.

(** The text [updateTimerDisplay] writes:
    [Math.floor(seconds / 60)] and [seconds % 60], each padded to two
    characters.  [%] takes the sign of the dividend. *)
Definition timer_text (seconds : Z) : string :=
  let minutes := padStart 2 "0" (JS.num_to_string (seconds / 60)) in
  let secs := padStart 2 "0" (JS.num_to_string (Z.rem seconds 60)) in
  minutes ++ ":" ++ secs.

(** The elements of the recording tab, by the properties the script
    writes. *)
Record View : Type := mkView {
  startBtn_display : string;          (* startBtn.style.display *)
  stopBtn_display : string;           (* stopBtn.style.display *)
  statusBox_className : string;
  statusText : string;                (* statusText.textContent *)
  timer_display : string;             (* timer.style.display *)
  timer_textContent : string;
  uploadStatus_textContent : string;
  uploadStatus_className : string
}.

(** The popup: its elements, the URL field, the [timerInterval]
    variable, the intervals that are running (each with the [seconds]
    variable its callback closes over), the next interval id, and the
    messages sent. *)
Record State : Type := mkState {
  view : View;
  backendUrlInput : string;
  timerInterval : option nat;
  intervals : list (nat * Z);
  next_interval : nat;
  sent : list JS.value
}.

Definition set_view (v : View) (p : State) : State :=
  mkState v (backendUrlInput p) (timerInterval p) (intervals p)
          (next_interval p) (sent p).

Definition post (message : JS.value) (p : State) : State :=
  mkState (view p) (backendUrlInput p) (timerInterval p) (intervals p)
          (next_interval p) (sent p ++ [message]).

Definition set_timer_textContent (text : string) (p : State) : State :=
  let v := view p in
  set_view (mkView (startBtn_display v) (stopBtn_display v)
                   (statusBox_className v) (statusText v) (timer_display v)
                   text (uploadStatus_textContent v)
                   (uploadStatus_className v)) p.

Definition set_statusText (text : string) (p : State) : State :=
  let v := view p in
  set_view (mkView (startBtn_display v) (stopBtn_display v)
                   (statusBox_className v) text (timer_display v)
                   (timer_textContent v) (uploadStatus_textContent v)
                   (uploadStatus_className v)) p.

Definition set_uploadStatus (text className : string) (p : State) : State :=
  let v := view p in
  set_view (mkView (startBtn_display v) (stopBtn_display v)
                   (statusBox_className v) (statusText v) (timer_display v)
                   (timer_textContent v) text className) p.

Definition updateTimerDisplay (seconds : Z) (p : State) : State :=
  set_timer_textContent (timer_text seconds) p.

(** [clearInterval(id)]; clearing [null] or an id that is not running
    does nothing. *)
Definition clearInterval (id : option nat) (p : State) : State :=
  match id with
  | None => p
  | Some i =>
      mkState (view p) (backendUrlInput p) (timerInterval p)
              (filter (fun entry => negb (fst entry =? i)%nat) (intervals p))
              (next_interval p) (sent p)
  end.

(** [timerInterval = setInterval(() => { seconds++; ... }, 1000)]. *)
Definition setInterval_timer (seconds : Z) (p : State) : State :=
  mkState (view p) (backendUrlInput p) (Some (next_interval p))
          (intervals p ++ [(next_interval p, seconds)])
          (S (next_interval p)) (sent p).

(** One firing of the interval [id]: [seconds++] and the display
    updated.  An interval that is not running does not fire. *)
Fixpoint fire (id : nat) (running : list (nat * Z))
  : list (nat * Z) * option Z :=
  match running with
  | [] => ([], None)
  | (i, seconds) :: rest =>
      if (i =? id)%nat then ((i, seconds + 1) :: rest, Some (seconds + 1))
      else let (rest', shown) := fire id rest in ((i, seconds) :: rest', shown)
  end.

Definition tick (id : nat) (p : State) : State :=
  let (running, shown) := fire id (intervals p) in
  let p' := mkState (view p) (backendUrlInput p) (timerInterval p) running
                    (next_interval p) (sent p) in
  match shown with
  | Some seconds => updateTimerDisplay seconds p'
  | None => p'
  end.

(** [showRecordingState(elapsed = 0)]. *)
Definition showRecordingState (elapsed : option Z) (p : State) : State :=
  let elapsed := match elapsed with Some e => e | None => 0 end in
  let v := view p in
  updateTimerDisplay elapsed
    (set_view (mkView "none" "block" "status recording" "Recording..."
                      "block" (timer_textContent v)
                      (uploadStatus_textContent v)
                      (uploadStatus_className v)) p).

Definition showIdleState (p : State) : State :=
  let v := view p in
  let p' := set_view (mkView "block" "none" "status idle" "Ready to record"
                             "none" "00:00"
                             (uploadStatus_textContent v)
                             (uploadStatus_className v)) p in
  clearInterval (timerInterval p') p'.

Definition startTimerFromElapsed (elapsed : Z) (p : State) : State :=
  let p1 := updateTimerDisplay elapsed p in
  let p2 := clearInterval (timerInterval p1) p1 in
  setInterval_timer elapsed p2.

(** The status reply as the coordinator sends it, read by [checkStatus]:
    nothing ([undefined]), or [isRecording] and a whole number of
    seconds. *)
Inductive StatusReply : Type :=
| NoStatus
| Status (isRecording : bool) (elapsed : Z).

Definition decode_status (r : JS.value) : StatusReply :=
  match JS.prop r "isRecording", JS.prop r "elapsed" with
  | JS.VBool b, JS.VNum e => Status b e
  | _, _ => NoStatus
  end.

(** Outcomes of the browser calls one handler makes. *)
Record Env : Type := mkEnv {
  tabs_query : outcome (list Z);       (* chrome.tabs.query: the tabs' ids *)
  reply : outcome JS.value;            (* chrome.runtime.sendMessage *)
  status_reply : outcome StatusReply   (* the same, for getStatus *)
}.

Definition sendMessage (message : JS.value) (env : Env) : M State JS.value :=
  modify (post message) ;;
  await (reply env).

Definition getStatus_message : JS.value :=
  JS.VObj [("action", JS.VStr "getStatus")].

Definition startRecording_message (tabId : Z) : JS.value :=
  JS.VObj [("action", JS.VStr "startRecording"); ("tabId", JS.VNum tabId)].

Definition stopRecording_message (backendUrl : string) : JS.value :=
  JS.VObj [("action", JS.VStr "stopRecording");
           ("backendUrl", JS.VStr backendUrl)].

(** [checkStatus] has no handler of its own: a rejected message leaves
    the popup as it was. *)
Definition checkStatus (env : Env) : M State unit :=
  modify (post getStatus_message) ;;
  response <- await (status_reply env) ;;
  match response with
  | Status true elapsed =>
      modify (showRecordingState (Some elapsed)) ;;
      modify (startTimerFromElapsed elapsed)
  | Status false _ | NoStatus => modify showIdleState
  end.

(** The click handler of the start button. *)
Definition startBtn_click (env : Env) : M State unit :=
  try_catch
    (tabs <- await (tabs_query env) ;;
     match tabs with
     | [] =>
         modify (set_uploadStatus "Error: No active tab" "upload-status error")
     | tab :: _ =>
         modify (set_uploadStatus "Starting..." "upload-status uploading") ;;
         response <- sendMessage (startRecording_message tab) env ;;
         ok <- read_prop response "success" ;;
         if JS.truthy ok then
           modify (showRecordingState None) ;;
           modify (startTimerFromElapsed 0) ;;
           modify (set_uploadStatus "Recording! You can close this popup."
                                    "upload-status success")
         else
           modify (set_uploadStatus
                     ("Error: " ++ toString (JS.prop response "error"))
                     "upload-status error")
     end)
    (fun message =>
       modify (set_uploadStatus ("Error: " ++ message) "upload-status error")).

(** The click handler of the stop button. *)
Definition stopBtn_click (env : Env) : M State unit :=
  try_catch
    (modify (fun p => clearInterval (timerInterval p) p) ;;
     modify (set_statusText "Stopping...") ;;
     modify (set_uploadStatus "Processing & uploading..."
                              "upload-status uploading") ;;
     backendUrl <- gets backendUrlInput ;;
     response <- sendMessage (stopRecording_message backendUrl) env ;;
     modify showIdleState ;;
     ok <- read_prop response "success" ;;
     if JS.truthy ok then
       modify (set_uploadStatus
                 ("Uploaded! Processing "
                  ++ toString (JS.prop response "filename"))
                 "upload-status success")
     else if JS.truthy (JS.prop response "savedLocally") then
       modify (set_uploadStatus "Upload failed - saved locally"
                                "upload-status error")
     else
       modify (set_uploadStatus
                 ("Error: " ++ toString (JS.prop response "error"))
                 "upload-status error"))
    (fun message =>
       modify showIdleState ;;
       modify (set_uploadStatus ("Error: " ++ message) "upload-status error")).

(** What happens to an open popup. *)
Inductive Input : Type :=
| Opened                     (* the script's last line: checkStatus() *)
| ClickStart
| ClickStop
| Tick (id : nat)            (* an interval fires *)
| EditBackendUrl (url : string).

Definition handle (input : Input) (env : Env) (p : State) : State :=
  match input with
  | Opened => snd (checkStatus env p)
  | ClickStart => snd (startBtn_click env p)
  | ClickStop => snd (stopBtn_click env p)
  | Tick id => tick id p
  | EditBackendUrl url =>
      mkState (view p) url (timerInterval p) (intervals p)
              (next_interval p) (sent p)
  end.

Fixpoint run (script : list (Input * Env)) (p : State) : State :=
  match script with
  | [] => p
  | (input, env) :: rest => run rest (handle input env p)
  end.

(** A popup as the page loads it: whatever its elements show, no
    interval is running. *)
Definition loaded (v : View) (backendUrl : string) : State :=
  mkState v backendUrl None [] 0 [].

Definition reachable (p : State) : Prop :=
  exists v backendUrl script, run script (loaded v backendUrl) = p.

(** At most one interval runs, and it is the one [timerInterval] names. *)
Definition single_timer (p : State) : Prop :=
  intervals p = [] \/
  exists id seconds,
    intervals p = [(id, seconds)] /\ timerInterval p = Some id.

(** The elements as [showIdleState] leaves them, the status line apart. *)
Definition shows_idle (p : State) : Prop :=
  startBtn_display (view p) = "block" /\
  stopBtn_display (view p) = "none" /\
  statusBox_className (view p) = "status idle" /\
  statusText (view p) = "Ready to record" /\
  timer_display (view p) = "none" /\
  timer_textContent (view p) = "00:00".

(** The popup once the stop command has been sent. *)
Definition stop_sent (p : State) : State :=
  post (stopRecording_message (backendUrlInput p))
    (set_uploadStatus "Processing & uploading..." "upload-status uploading"
       (set_statusText "Stopping..." (clearInterval (timerInterval p) p))).

(** The popup once the start command for [tab] has been sent. *)
Definition start_sent (tab : Z) (p : State) : State :=
  post (startRecording_message tab)
    (set_uploadStatus "Starting..." "upload-status uploading" p).

(** The cut [extractPageContent] applies to the page text it returns:
    [if (text.length > 8000) text = text.substring(0, 8000) + '... [truncated]']. *)
Definition limit_content (text : string) : string :=
  if 8000 <? Z.of_nat (String.length text)
  then String.substring 0 (Z.to_nat 8000) text ++ "... [truncated]"
  else text.

(** Sample data for the examples. *)
Definition blank : View := mkView "" "" "" "" "" "" "" "".

Definition answers (r : JS.value) : Env :=
  mkEnv (Resolved [7]) (Resolved r) (Resolved NoStatus).

End Popup.

(* ------------------------------------------------------------------ *)
(** * Properties of the coordinator *)

Section Coordinator.
Import Async Background.

Ltac unfold_async :=
  cbv [startRecording stopRecording getStatus createOffscreenDocument
       closeOffscreenDocument getContexts sendMessage
       bind ret throw try_catch gets modify await await_unit read_prop when].

Lemma well_formed_session_ok (s : Session) : well_formed s -> session_ok s.
Proof.
  intros [-> | (tabId & t & ->)]; unfold session_ok; simpl;
    repeat split; intros; congruence.
Qed.

(** What one [startRecording] does when no session is active: either the
    reply is truthy on [success] and the session is exactly the new one,
    or nothing of the session or the badge changes. *)
Lemma startRecording_from_idle (tabId : Z) (env : Env) (w : World) :
  isRecording (session w) = false ->
  exists r w',
    startRecording tabId env w = (Normal r, w') /\
    ((JS.truthy (JS.prop r "success") = true /\
      reply env = Resolved r /\
      session w' = mkSession true (Some tabId) (Some (now env)) /\
      badgeText w' = "REC" /\ offscreenDocument w' = true)
     \/
     (JS.truthy (JS.prop r "success") = false /\
      session w' = session w /\
      badgeText w' = badgeText w /\
      badgeBackgroundColor w' = badgeBackgroundColor w)).
Proof.
  intros Hidle. unfold_async. rewrite Hidle.
  destruct (getMediaStreamId env) as [streamId | e]; simpl.
  2: { eexists _, _; split; [reflexivity | right; auto]. }
  destruct (getContexts_fault env) as [e | ]; simpl.
  { eexists _, _; split; [reflexivity | right; auto]. }
  destruct (offscreenDocument w) eqn:Hdoc; simpl.
  - destruct (reply env) as [response | e]; simpl.
    2: { eexists _, _; split; [reflexivity | right; auto]. }
    destruct response; simpl;
      try (eexists _, _; split; [reflexivity | right; auto]; fail).
    destruct (JS.truthy _) eqn:Hok; simpl;
      eexists _, _; (split; [reflexivity | ]); [left | right]; auto.
  - destruct (createDocument_fault env) as [e | ]; simpl.
    { eexists _, _; split; [reflexivity | right; auto]. }
    destruct (reply env) as [response | e]; simpl.
    2: { eexists _, _; split; [reflexivity | right; auto]. }
    destruct response; simpl;
      try (eexists _, _; split; [reflexivity | right; auto]; fail).
    destruct (JS.truthy _) eqn:Hok; simpl;
      eexists _, _; (split; [reflexivity | ]); [left | right]; auto.
Qed.

Lemma startRecording_while_active (tabId : Z) (env : Env) (w : World) :
  isRecording (session w) = true ->
  startRecording tabId env w = (Normal (failure AlreadyActive), w).
Proof. intros Hactive. unfold_async. rewrite Hactive. reflexivity. Qed.

Lemma stopRecording_while_idle (backendUrl : string) (env : Env) (w : World) :
  isRecording (session w) = false ->
  stopRecording backendUrl env w = (Normal (failure NotActive), w).
Proof. intros Hidle. unfold_async. rewrite Hidle. reflexivity. Qed.

(** A stop whose delegated message is rejected: the handler reports the
    error and nothing but the record of sent messages has changed. *)
Lemma stopRecording_delegation_rejected
    (backendUrl e : string) (env : Env) (w : World) :
  isRecording (session w) = true ->
  reply env = Rejected e ->
  stopRecording backendUrl env w
  = (Normal (failure e), post (stopCapture_message backendUrl) w).
Proof.
  intros Hactive Hreply. unfold_async. rewrite Hactive, Hreply. reflexivity.
Qed.

(** A stop whose delegated message is answered, whatever the answer: the
    session and the badge are cleared; the document is closed and the
    answer handed back unless the teardown itself faults. *)
Lemma stopRecording_delegation_answered
    (backendUrl : string) (env : Env) (w : World) (response : JS.value) :
  isRecording (session w) = true ->
  reply env = Resolved response ->
  exists r w',
    stopRecording backendUrl env w = (Normal r, w') /\
    session w' = idle /\ badgeText w' = "" /\
    sent w' = (sent w ++ [stopCapture_message backendUrl])%list /\
    (getContexts_fault env = None ->
     (offscreenDocument w = true -> closeDocument_fault env = None) ->
     r = response /\ offscreenDocument w' = false).
Proof.
  intros Hactive Hreply. unfold_async. rewrite Hactive, Hreply. simpl.
  destruct (getContexts_fault env) as [e | ]; simpl.
  { eexists _, _. split; [reflexivity | ].
    repeat split; intros; discriminate. }
  destruct (offscreenDocument w) eqn:Hdoc; simpl.
  - destruct (closeDocument_fault env) as [e | ]; simpl.
    + eexists _, _. split; [reflexivity | ].
      split; [reflexivity | ]. split; [reflexivity | ].
      split; [reflexivity | ].
      intros _ Hclose. specialize (Hclose eq_refl). discriminate.
    + eexists _, _. split; [reflexivity | ]. repeat split.
  - eexists _, _. split; [reflexivity | ].
    repeat split. simpl. exact Hdoc.
Qed.

(** How one message can change the session. *)
Lemma onMessage_session (message : Message) (env : Env) (w : World) :
  let w' := snd (onMessage message env w) in
  session w' = session w
  \/ (isRecording (session w) = true /\ session w' = idle)
  \/ (isRecording (session w) = false /\
      exists tabId t, session w' = mkSession true (Some tabId) (Some t)).
Proof.
  destruct message as [ | | tabId | backendUrl | ]; simpl; auto.
  - destruct (isRecording (session w)) eqn:Hrec.
    + rewrite startRecording_while_active by assumption. auto.
    + destruct (startRecording_from_idle tabId env w Hrec)
        as (r & w' & -> & [(_ & _ & Hs & _) | (_ & Hs & _)]); simpl; eauto 6.
  - destruct (isRecording (session w)) eqn:Hrec.
    + destruct (reply env) as [response | e] eqn:Hreply.
      * destruct (stopRecording_delegation_answered backendUrl env w response
                    Hrec Hreply) as (r & w' & -> & Hs & _); simpl; auto.
      * rewrite (stopRecording_delegation_rejected backendUrl e env w)
          by assumption. auto.
    + rewrite stopRecording_while_idle by assumption. auto.
Qed.

Lemma onMessage_well_formed (message : Message) (env : Env) (w : World) :
  well_formed (session w) ->
  well_formed (session (snd (onMessage message env w))).
Proof.
  intros Hwf.
  destruct (onMessage_session message env w)
    as [-> | [(_ & ->) | (_ & tabId & t & ->)]];
    [assumption | left; reflexivity | right; eauto].
Qed.

Lemma run_well_formed (script : list (Message * Env)) :
  forall w, well_formed (session w) -> well_formed (session (run script w)).
Proof.
  induction script as [ | [message env] rest IH]; intros w Hwf; simpl.
  - assumption.
  - apply IH, onMessage_well_formed, Hwf.
Qed.

Lemma reachable_well_formed (w : World) :
  reachable w -> well_formed (session w).
Proof.
  intros [script <-]. apply run_well_formed. left. reflexivity.
Qed.

(** Each message moves the ledger exactly as it moves [isRecording]. *)
Lemma live_sessions_balance (script : list (Message * Env)) :
  forall w,
    live_sessions script w + recording_count w = recording_count (run script w).
Proof.
  induction script as [ | [message env] rest IH]; intros w; simpl.
  - reflexivity.
  - destruct (onMessage message env w) as [response w'] eqn:Hstep.
    cbv zeta. simpl snd. rewrite <- (IH w'). clear IH.
    enough (recording_count w' - recording_count w
            = match message with
              | StartRecording _ => if succeeded response then 1 else 0
              | StopRecording _ =>
                  if isRecording (session w) && negb (isRecording (session w'))
                  then -1 else 0
              | _ => 0
              end) by lia.
    unfold recording_count.
    destruct message as [ | | tabId | backendUrl | ]; simpl in Hstep.
    + inversion Hstep; subst. lia.
    + inversion Hstep; subst. simpl. lia.
    + destruct (isRecording (session w)) eqn:Hrec.
      * rewrite startRecording_while_active in Hstep by assumption.
        inversion Hstep; subst. rewrite Hrec. reflexivity.
      * destruct (startRecording_from_idle tabId env w Hrec)
          as (r & w1 & Heq & [(Hok & _ & Hs & _) | (Hok & Hs & _)]);
          rewrite Heq in Hstep; inversion Hstep; subst; simpl;
          rewrite Hok, Hs; simpl; [ | rewrite Hrec]; reflexivity.
    + pose proof (onMessage_session (StopRecording backendUrl) env w) as Hs.
      simpl in Hs. rewrite Hstep in Hs. simpl in Hs.
      destruct Hs as [-> | [(Hrec & ->) | (Hrec & tabId & t & Hs)]].
      * destruct (isRecording (session w)); reflexivity.
      * rewrite Hrec. reflexivity.
      * rewrite stopRecording_while_idle in Hstep by assumption.
        inversion Hstep; subst. rewrite Hrec. reflexivity.
    + inversion Hstep; subst. lia.
Qed.

Lemma session_ok_idle : session_ok idle.
Proof. apply well_formed_session_ok. left. reflexivity. Qed.

Lemma onMessage_session_ok (message : Message) (env : Env) (w : World) :
  session_ok (session w) ->
  session_ok (session (snd (onMessage message env w))).
Proof.
  intros Hok.
  destruct (onMessage_session message env w)
    as [-> | [(_ & ->) | (_ & tabId & t & ->)]].
  - assumption.
  - exact session_ok_idle.
  - apply well_formed_session_ok. right. eauto.
Qed.

Lemma elapsed_monotone (s : Session) (now1 now2 : Z) :
  now1 <= now2 -> elapsed s now1 <= elapsed s now2.
Proof.
  intros Hle. unfold elapsed.
  destruct (JS.truthy _); [ | lia].
  destruct (startTime s) as [t | ]; [ | lia].
  apply Z.div_le_mono; lia.
Qed.

(** C1, evaluated where the code departs from it: a session is active,
    [stopRecording] sends the stop command to the worker, and the message
    is rejected because nothing receives it.  The call returns
    [{success: false, error}] with the stop command on record as sent,
    yet the session fields still hold the session, the badge still reads
    REC and the offscreen document still exists. *)
Theorem C1_rejected_delegation_skips_cleanup :
  let w := recording_since 1000 in
  let e := "Could not establish connection. Receiving end does not exist." in
  let env := calm 9000 (Rejected e) in
  exists w',
    stopRecording "http://localhost:8000" env w = (Normal (failure e), w') /\
    In (stopCapture_message "http://localhost:8000") (sent w') /\
    session w = mkSession true (Some 7) (Some 1000) /\
    session w' = mkSession true (Some 7) (Some 1000) /\
    badgeText w' = "REC" /\
    offscreenDocument w' = true.
Proof.
  cbv zeta. eexists. split; [reflexivity | ].
  simpl. repeat split. right. left. reflexivity.
Qed.

(** The other way past the cleanup: the worker answers, the fields and
    the badge are cleared, and then closing the document faults.  The
    document stays, and the caller gets the fault instead of the answer. *)
Example stopRecording_teardown_faulted :
  let w := recording_since 1000 in
  let env := mkEnv 9000 (Resolved "stream-1") None None
                   (Some "No current offscreen document.")
                   (Resolved success_only) in
  exists w',
    stopRecording "http://localhost:8000" env w
    = (Normal (failure "No current offscreen document."), w') /\
    session w' = idle /\ badgeText w' = "" /\ offscreenDocument w' = true.
Proof. cbv zeta. eexists. split; [reflexivity | ]. repeat split. Qed.

(** C2: while a session is active, [startRecording] returns
    [{success: false, error: 'Already recording'}] (the AlreadyActive
    error) and leaves [isRecording], [recordingTabId] and [startTime],
    and everything else, as they were. *)
Theorem C2_startRecording_while_active
    (tabId : Z) (env : Env) (w : World) :
  isRecording (session w) = true ->
  exists r w',
    startRecording tabId env w = (Normal r, w') /\
    r = JS.VObj [("success", JS.VBool false); ("error", JS.VStr AlreadyActive)] /\
    isRecording (session w') = isRecording (session w) /\
    recordingTabId (session w') = recordingTabId (session w) /\
    startTime (session w') = startTime (session w) /\
    w' = w.
Proof.
  intros Hactive. exists (failure AlreadyActive), w.
  rewrite startRecording_while_active by assumption.
  repeat split.
Qed.

Lemma C2_witness :
  exists r w',
    startRecording 8 (calm 6000 (Resolved success_only)) (recording_since 1000)
    = (Normal r, w') /\
    r = JS.VObj [("success", JS.VBool false); ("error", JS.VStr AlreadyActive)] /\
    isRecording (session w') = isRecording (session (recording_since 1000)) /\
    recordingTabId (session w') = recordingTabId (session (recording_since 1000)) /\
    startTime (session w') = startTime (session (recording_since 1000)) /\
    w' = recording_since 1000.
Proof.
  apply (C2_startRecording_while_active
           8 (calm 6000 (Resolved success_only)) (recording_since 1000)).
  reflexivity.
Defined.

(** C3, at the input where the code departs from it: a session started
    while the clock read 0.  The start succeeds and stores the number 0
    in [startTime]; the test [startTime ? ... : 0], meant to tell a
    stored start time from [null], takes that 0 for absent.  So a status
    query five seconds into the session answers [isRecording: true] with
    [elapsed: 0] and leaves the world as it was, where the claim's
    formula, [(5000 - 0) / 1000] rounded down, gives 5. *)
Theorem C3_session_started_at_zero_reports_no_elapsed :
  let w := run [(StartRecording 7, calm 0 (Resolved success_only))] initial in
  reachable w /\
  isRecording (session w) = true /\
  startTime (session w) = Some 0 /\
  (exists r,
     getStatus (calm 5000 (Resolved success_only)) w = (Normal r, w) /\
     JS.prop r "isRecording" = JS.VBool true /\
     JS.prop r "elapsed" = JS.VNum 0) /\
  (5000 - 0) / 1000 = 5 /\
  elapsed (session w) 5000 <> (5000 - 0) / 1000.
Proof.
  cbv zeta. split.
  { exists [(StartRecording 7, calm 0 (Resolved success_only))]. reflexivity. }
  split; [reflexivity | ]. split; [reflexivity | ].
  split; [eexists; split; [reflexivity | split; reflexivity] | ].
  split; [reflexivity | ].
  vm_compute. discriminate.
Qed.

(** Away from that input [getStatus] reads the session as the data model
    has it.  It always answers and changes nothing; with no session
    active the answer has [elapsed = 0]; with a session active whose
    stored start time [startedAt] is not the number 0, [elapsed] is
    [(now - startedAt) / 1000] rounded down, a whole number of seconds;
    and a query made at a later clock reading never reports less than an
    earlier one. *)
Lemma getStatus_elapsed_from_nonzero_start (w : World) (env : Env) :
  reachable w ->
  (exists r,
     getStatus env w = (Normal r, w) /\
     JS.prop r "isRecording" = JS.VBool (isRecording (session w)) /\
     JS.prop r "elapsed" = JS.VNum (elapsed (session w) (now env))) /\
  (isRecording (session w) = false -> elapsed (session w) (now env) = 0) /\
  (forall startedAt,
     isRecording (session w) = true ->
     startTime (session w) = Some startedAt ->
     startedAt <> 0 ->
     elapsed (session w) (now env) = (now env - startedAt) / 1000 /\
     1000 * elapsed (session w) (now env) <= now env - startedAt
       < 1000 * elapsed (session w) (now env) + 1000) /\
  (forall later,
     now env <= later ->
     elapsed (session w) (now env) <= elapsed (session w) later).
Proof.
  intros Hreach. split; [ | split; [ | split]].
  - eexists. repeat split.
  - intros Hidle.
    destruct (reachable_well_formed w Hreach) as [Hs | (tabId & t & Hs)];
      rewrite Hs in *; [reflexivity | discriminate].
  - intros startedAt _ Hstart Hnonzero.
    assert (Hel : elapsed (session w) (now env) = (now env - startedAt) / 1000).
    { unfold elapsed. rewrite Hstart. simpl.
      destruct (Z.eqb_spec startedAt 0); [contradiction | reflexivity]. }
    rewrite Hel. split; [reflexivity | ].
    pose proof (Z.div_mod (now env - startedAt) 1000 ltac:(lia)).
    pose proof (Z.mod_pos_bound (now env - startedAt) 1000 ltac:(lia)).
    lia.
  - intros later. apply elapsed_monotone.
Qed.

Lemma getStatus_elapsed_examples :
  elapsed (session initial) 5000 = 0 /\
  elapsed (session (recording_since 1000)) 6999 = 5 /\
  elapsed (session (recording_since 1000)) 6999
    <= elapsed (session (recording_since 1000)) 7000.
Proof.
  split; [ | split].
  - apply (getStatus_elapsed_from_nonzero_start initial (calm 5000 (Resolved success_only))).
    + exists []. reflexivity.
    + reflexivity.
  - assert (Hreach : reachable (recording_since 1000)).
    { exists [(StartRecording 7, calm 1000 (Resolved success_only))].
      reflexivity. }
    destruct (getStatus_elapsed_from_nonzero_start (recording_since 1000)
                (calm 6999 (Resolved success_only)) Hreach)
      as (_ & _ & Hactive & _).
    destruct (Hactive 1000) as [Hel _].
    + reflexivity.
    + reflexivity.
    + discriminate.
    + exact Hel.
  - assert (Hreach : reachable (recording_since 1000)).
    { exists [(StartRecording 7, calm 1000 (Resolved success_only))].
      reflexivity. }
    apply (getStatus_elapsed_from_nonzero_start (recording_since 1000)
             (calm 6999 (Resolved success_only)) Hreach).
    simpl. lia.
Defined.

(** C4: a [startRecording] that does not report success leaves the
    session as it was, idle, with no field set, and the badge untouched;
    and when it fails because the stream-id request or another awaited
    step throws, or because the worker answers with a failure, what it
    returns is [{success: false, error}]. *)
Theorem C4_startRecording_failure_leaves_idle
    (tabId : Z) (env : Env) (w : World) :
  reachable w ->
  isRecording (session w) = false ->
  exists r w',
    startRecording tabId env w = (Normal r, w') /\
    (JS.truthy (JS.prop r "success") = false ->
     session w' = session w /\
     isRecording (session w') = false /\
     recordingTabId (session w') = None /\
     startTime (session w') = None /\
     badgeText w' = badgeText w) /\
    (forall e,
       start_failure env w e ->
       r = JS.VObj [("success", JS.VBool false); ("error", JS.VStr e)]).
Proof.
  intros Hreach Hidle.
  assert (Hs : session w = idle).
  { destruct (reachable_well_formed w Hreach) as [Hs | (tab & t & Hs)];
      [assumption | rewrite Hs in Hidle; discriminate]. }
  destruct (startRecording_from_idle tabId env w Hidle)
    as (r & w' & Heq & Hcases).
  exists r, w'. split; [exact Heq | ]. split.
  - intros Hfalse.
    destruct Hcases as [(Hok & _) | (_ & Hsame & Hbadge & _)];
      [congruence | ].
    rewrite Hsame, Hs. repeat split. exact Hbadge.
  - intros e Hfail.
    enough (Hret : exists w'', startRecording tabId env w
                               = (Normal (failure e), w'')).
    { destruct Hret as (w'' & Hret). rewrite Hret in Heq.
      inversion Heq. reflexivity. }
    clear Heq Hcases. unfold_async. rewrite Hidle.
    destruct Hfail as [e Hid | sid e Hid Hctx | sid e Hid Hctx Hdoc Hcreate
                      | sid e Hid Hctx Hcreate Hreply
                      | sid Hid Hctx Hcreate Hreply
                      | sid e Hid Hctx Hcreate Hreply];
      rewrite Hid; simpl.
    + eexists; reflexivity.
    + rewrite Hctx. simpl. eexists; reflexivity.
    + rewrite Hctx. simpl. rewrite Hdoc, Hcreate. simpl. eexists; reflexivity.
    + rewrite Hctx. simpl.
      destruct (offscreenDocument w); [ | rewrite (Hcreate eq_refl)];
        simpl; rewrite Hreply; simpl; eexists; reflexivity.
    + rewrite Hctx. simpl.
      destruct (offscreenDocument w); [ | rewrite (Hcreate eq_refl)];
        simpl; rewrite Hreply; simpl; eexists; reflexivity.
    + rewrite Hctx. simpl.
      destruct (offscreenDocument w); [ | rewrite (Hcreate eq_refl)];
        simpl; rewrite Hreply; simpl; eexists; reflexivity.
Qed.

Lemma C4_witness :
  exists r w',
    startRecording 7 (calm 1000 (Resolved (failure "Permission denied"))) initial
    = (Normal r, w') /\
    r = JS.VObj [("success", JS.VBool false);
                 ("error", JS.VStr "Permission denied")] /\
    session w' = session initial /\
    isRecording (session w') = false /\
    recordingTabId (session w') = None /\
    startTime (session w') = None /\
    badgeText w' = badgeText initial.
Proof.
  destruct (C4_startRecording_failure_leaves_idle
              7 (calm 1000 (Resolved (failure "Permission denied"))) initial)
    as (r & w' & Heq & Hidle & Hret).
  - exists []. reflexivity.
  - reflexivity.
  - assert (Hr : r = failure "Permission denied").
    { apply Hret. apply (worker_reported_failure _ _ "stream-1"); reflexivity. }
    exists r, w'. split; [exact Heq | ]. split; [exact Hr | ].
    apply Hidle. rewrite Hr. reflexivity.
Defined.

(** C8: in every world the coordinator reaches by any sequence of
    messages, [recordingTabId] and [startTime] are non-null exactly when
    [isRecording] is true; the sessions created and not yet destroyed
    number what [isRecording] says, so never more than one; and each
    message, handled in a world where the invariant holds, leaves it
    holding. *)
Theorem C8_session_invariant :
  (forall script,
     let w := run script initial in
     session_ok (session w) /\
     live_sessions script initial = recording_count w /\
     0 <= live_sessions script initial <= 1) /\
  (forall message env w,
     session_ok (session w) ->
     session_ok (session (snd (onMessage message env w)))).
Proof.
  split.
  - intros script w.
    pose proof (live_sessions_balance script initial) as Hbal.
    change (recording_count initial) with 0 in Hbal.
    rewrite Z.add_0_r in Hbal. fold w in Hbal.
    split; [ | split].
    + apply well_formed_session_ok, reachable_well_formed.
      exists script. reflexivity.
    + exact Hbal.
    + rewrite Hbal. unfold recording_count.
      destruct (isRecording (session w)); lia.
  - intros message env w. apply onMessage_session_ok.
Qed.

Lemma C8_witness :
  session_ok
    (session (snd (onMessage (StopRecording "http://localhost:8000")
                             (calm 9000 (Resolved success_only))
                             (recording_since 1000)))).
Proof.
  apply (proj2 C8_session_invariant).
  unfold session_ok. simpl. repeat split; intros; congruence.
Defined.

End Coordinator.

(* ------------------------------------------------------------------ *)
(** * Properties of the capture worker *)

Section Worker.
Import Async Offscreen.

Ltac unfold_worker :=
  cbv [startCapture stopCapture onstop uploadRecording ondataavailable
       bind ret throw try_catch gets modify await await_unit when].

Lemma emit_emit (a b : list Event) (w : Worker) :
  emit b (emit a w) = emit (a ++ b)%list w.
Proof. unfold emit. simpl. rewrite <- app_assoc. reflexivity. Qed.

(** ** Strings and object literals *)

Lemma strip_trailing_slash_slash (d : string) :
  strip_trailing_slash (d ++ "/") = d.
Proof.
  induction d as [ | c d IH]; [reflexivity | ].
  simpl. rewrite IH.
  destruct (d ++ "/") eqn:Hd; [ | reflexivity].
  destruct d; discriminate.
Qed.

Lemma strip_trailing_slash_other (s : string) :
  (forall d, s <> d ++ "/") -> strip_trailing_slash s = s.
Proof.
  induction s as [ | c s IH]; intros Hno; [reflexivity | ].
  simpl. destruct s as [ | c' s'].
  - destruct (Ascii.eqb_spec c "/"%char) as [-> | ]; [ | reflexivity].
    exfalso. apply (Hno ""). reflexivity.
  - rewrite IH; [reflexivity | ].
    intros d Hd. apply (Hno (String c d)). simpl. rewrite Hd. reflexivity.
Qed.

Lemma lookup_obj_set (k k' : string) (v : JS.value) props :
  JS.lookup k (JS.obj_set k' v props)
  = if (k =? k')%string then Some v else JS.lookup k props.
Proof.
  induction props as [ | [k0 v0] rest IH]; simpl.
  - reflexivity.
  - destruct (String.eqb_spec k' k0) as [-> | Hne]; simpl.
    + destruct (k =? k0)%string; reflexivity.
    + rewrite IH.
      destruct (String.eqb_spec k k0) as [-> | ];
        destruct (String.eqb_spec k0 k') as [-> | ]; congruence.
Qed.

Lemma lookup_app (k : string) (p q : list (string * JS.value)) :
  JS.lookup k (p ++ q)
  = match JS.lookup k p with Some v => Some v | None => JS.lookup k q end.
Proof.
  induction p as [ | [k0 v0] rest IH]; simpl; [reflexivity | ].
  destruct (k =? k0)%string; [reflexivity | exact IH].
Qed.

(** In a spread, the last binding of a key in the source wins, and a key
    the source lacks keeps the target's value. *)
Lemma lookup_spread (k : string) (src : list (string * JS.value)) :
  forall target,
    JS.lookup k (fold_left (fun acc kv => JS.obj_set (fst kv) (snd kv) acc)
                           src target)
    = match JS.lookup k (rev src) with
      | Some v => Some v
      | None => JS.lookup k target
      end.
Proof.
  induction src as [ | [k0 v0] rest IH]; intros target; simpl.
  - reflexivity.
  - rewrite IH, lookup_app, lookup_obj_set. simpl.
    destruct (JS.lookup k (rev rest)); [reflexivity | ].
    destruct (k =? k0)%string; reflexivity.
Qed.

(** ** The upload step *)

Lemma uploadRecording_success
    (blob : Blob) (backendUrl : string) (env : Env) (w : Worker)
    (response : Response) (meta : JS.value) :
  fetch_result env = Resolved response ->
  ok response = true ->
  json response = Resolved meta ->
  uploadRecording blob backendUrl env w
  = (Normal (JS.VObj (JS.spread [("success", JS.VBool true)] meta)),
     emit [Fetched (mkRequest (strip_trailing_slash backendUrl ++ "/upload")
                              "POST"
                              [mkFormField "video" blob
                                 (upload_filename (now_upload env))])] w).
Proof.
  intros Hfetch Hok Hjson. unfold_worker.
  rewrite Hfetch. simpl. rewrite Hok. simpl. rewrite Hjson. reflexivity.
Qed.

Lemma uploadRecording_failure
    (blob : Blob) (backendUrl : string) (env : Env) (w : Worker) (e : string) :
  upload_failure env e ->
  uploadRecording blob backendUrl env w
  = (Normal (saved_locally e),
     emit [Fetched (mkRequest (strip_trailing_slash backendUrl ++ "/upload")
                              "POST"
                              [mkFormField "video" blob
                                 (upload_filename (now_upload env))]);
           ObjectURLCreated blob (createObjectURL env);
           MessageSent (downloadFallback_message (createObjectURL env)
                          (fallback_filename (now_fallback env)))] w).
Proof.
  intros [e' Hfetch | response Hfetch Hok | response e' Hfetch Hok Hjson];
    unfold_worker; rewrite Hfetch; simpl.
  - rewrite !emit_emit. reflexivity.
  - rewrite Hok. simpl. rewrite !emit_emit. reflexivity.
  - rewrite Hok. simpl. rewrite Hjson. simpl. rewrite !emit_emit. reflexivity.
Qed.

(** Every upload either succeeds or fails in one of the three ways. *)
Lemma upload_succeeds_or_fails (env : Env) :
  (exists response meta,
     fetch_result env = Resolved response /\ ok response = true /\
     json response = Resolved meta)
  \/ (exists e, upload_failure env e).
Proof.
  destruct (fetch_result env) as [response | e] eqn:Hfetch.
  - destruct (ok response) eqn:Hok.
    + destruct (json response) as [meta | e] eqn:Hjson.
      * left. eauto.
      * right. exists e. eapply local_exception; eauto.
    + right. eexists. eapply failure_status; eauto.
  - right. exists e. apply network_fault. exact Hfetch.
Qed.

(** The events of one upload: the request first, nothing but the
    fallback's two events after it. *)
Lemma uploadRecording_events
    (blob : Blob) (backendUrl : string) (env : Env) (w : Worker) :
  exists r after,
    uploadRecording blob backendUrl env w
    = (Normal r,
       emit (Fetched (mkRequest (strip_trailing_slash backendUrl ++ "/upload")
                                "POST"
                                [mkFormField "video" blob
                                   (upload_filename (now_upload env))])
             :: after) w) /\
    filter is_TrackStopped after = [] /\
    filter is_Fetched after = [].
Proof.
  destruct (upload_succeeds_or_fails env)
    as [(response & meta & Hfetch & Hok & Hjson) | (e & Hfail)].
  - rewrite (uploadRecording_success blob backendUrl env w response meta)
      by assumption.
    eexists _, []. repeat split.
  - rewrite (uploadRecording_failure blob backendUrl env w e) by assumption.
    eexists _, _. repeat split.
Qed.

(** ** Stopping *)

(** A [stopCapture] that passes its test is an upload of the assembled
    buffer, run after the recorder and the tracks have been stopped. *)
Lemma stopCapture_capturing (backendUrl : string) (env : Env) (w : Worker) :
  capturing w = true ->
  stopCapture backendUrl env w
  = uploadRecording (new_Blob (flushed w env) "video/webm") backendUrl env
      (mkWorker (option_map (set_state inactive) (mediaRecorder w))
                (flushed w env) (mediaStream w)
                (log w ++ RecorderStopped :: stopped_tracks w)).
Proof.
  intros Hcap. unfold stopCapture at 1, onstop, ondataavailable.
  cbv [bind ret gets modify when]. rewrite Hcap. simpl.
  unfold flushed, stopped_tracks, nonempty. simpl filter.
  destruct (0 <? size (last_chunk env)); simpl;
    unfold emit, set_mediaRecorder, set_recordedChunks; simpl;
    destruct (mediaStream w) as [s | ]; simpl;
    unfold emit; simpl; rewrite <- ?app_assoc, ?app_nil_r; reflexivity.
Qed.

Lemma stopCapture_not_capturing (backendUrl : string) (env : Env) (w : Worker) :
  capturing w = false ->
  stopCapture backendUrl env w = (Normal (failure NotCapturing), w).
Proof.
  intros Hcap. unfold stopCapture. cbv [bind ret gets]. rewrite Hcap.
  reflexivity.
Qed.

(** The whole effect of a [stopCapture] that passes its test. *)
Lemma stopCapture_world (backendUrl : string) (env : Env) (w : Worker) :
  capturing w = true ->
  exists r after,
    stopCapture backendUrl env w
    = (Normal r,
       mkWorker (option_map (set_state inactive) (mediaRecorder w))
                (flushed w env) (mediaStream w)
                (log w ++ RecorderStopped :: stopped_tracks w
                 ++ Fetched (mkRequest
                               (strip_trailing_slash backendUrl ++ "/upload")
                               "POST"
                               [mkFormField "video"
                                  (new_Blob (flushed w env) "video/webm")
                                  (upload_filename (now_upload env))])
                 :: after)) /\
    filter is_TrackStopped after = [] /\
    filter is_Fetched after = [].
Proof.
  intros Hcap. rewrite stopCapture_capturing by assumption.
  match goal with
  | |- context [uploadRecording ?blob backendUrl env ?w0] =>
      destruct (uploadRecording_events blob backendUrl env w0)
        as (r & after & -> & Htracks & Hfetch)
  end.
  exists r, after. split; [ | split; assumption].
  unfold emit. simpl. rewrite <- app_assoc. reflexivity.
Qed.

Lemma flushed_nonempty (w : Worker) (env : Env) :
  Forall (fun b => 0 < size b) (recordedChunks w) ->
  Forall (fun b => 0 < size b) (flushed w env).
Proof.
  intros Hall. unfold flushed. apply Forall_app. split; [assumption | ].
  simpl. unfold nonempty.
  destruct (Z.ltb_spec 0 (size (last_chunk env))); repeat constructor.
  assumption.
Qed.

(** ** Invariants of the worker *)

Lemma ondataavailable_ok (data : Blob) (w : Worker) :
  worker_ok w -> worker_ok (snd (ondataavailable data w)).
Proof.
  intros [Hchunks Hrec]. unfold ondataavailable, when.
  destruct (Z.ltb_spec 0 (size data)); simpl; [ | split; assumption].
  split; [ | exact Hrec].
  simpl. apply Forall_app. split; [assumption | ]. repeat constructor.
  assumption.
Qed.

Lemma startCapture_ok (streamId : string) (env : Env) (w : Worker) :
  worker_ok w -> worker_ok (snd (startCapture streamId env w)).
Proof.
  intros [Hchunks Hrec]. unfold_worker.
  destruct (getUserMedia env) as [s | e]; simpl; [ | split; assumption].
  destruct (new_MediaRecorder_fault env) as [e | ]; simpl.
  { split; simpl; [constructor | discriminate]. }
  destruct (start_fault env) as [e | ]; simpl;
    split; simpl; first [constructor | discriminate].
Qed.

Lemma stopCapture_ok (backendUrl : string) (env : Env) (w : Worker) :
  worker_ok w -> worker_ok (snd (stopCapture backendUrl env w)).
Proof.
  intros [Hchunks Hrec].
  destruct (capturing w) eqn:Hcap.
  - destruct (stopCapture_world backendUrl env w Hcap) as (r & after & -> & _).
    split; simpl.
    + apply flushed_nonempty, Hchunks.
    + intros Hsome. apply Hrec.
      destruct (mediaRecorder w); [discriminate | contradiction].
  - rewrite stopCapture_not_capturing by assumption. split; assumption.
Qed.

Lemma handle_ok (input : Input) (env : Env) (w : Worker) :
  worker_ok w -> worker_ok (snd (handle input env w)).
Proof.
  intros Hok.
  destruct input as [ | streamId | backendUrl | | data]; simpl;
    try assumption.
  - pose proof (startCapture_ok streamId env w Hok) as H.
    destruct (startCapture streamId env w) as [[r | e] w']; exact H.
  - pose proof (stopCapture_ok backendUrl env w Hok) as H.
    destruct (stopCapture backendUrl env w) as [[r | e] w']; exact H.
  - apply ondataavailable_ok, Hok.
Qed.

Lemma reachable_ok (w : Worker) : reachable w -> worker_ok w.
Proof.
  intros [script <-].
  assert (Hinit : worker_ok initial).
  { split; simpl.
    - constructor.
    - intros H. contradiction. }
  revert Hinit. generalize initial.
  induction script as [ | [input env] rest IH]; intros w Hok; simpl.
  - assumption.
  - apply IH, handle_ok, Hok.
Qed.

(** ** What was uploaded *)

Lemma uploaded_app (a b : list Event) :
  uploaded (a ++ b) = (uploaded a ++ uploaded b)%list.
Proof. unfold uploaded. apply flat_map_app. Qed.

Lemma uploaded_no_fetch (events : list Event) :
  filter is_Fetched events = [] -> uploaded events = [].
Proof.
  induction events as [ | e rest IH]; intros Hnone; [reflexivity | ].
  destruct e; simpl in *; try discriminate; apply IH; assumption.
Qed.

Lemma uploaded_stopped_tracks (w : Worker) : uploaded (stopped_tracks w) = [].
Proof.
  unfold stopped_tracks. destruct (mediaStream w) as [s | ]; [ | reflexivity].
  induction (getTracks s) as [ | t rest IH]; [reflexivity | exact IH].
Qed.

(** The one Blob a passing [stopCapture] uploads is the buffer assembled. *)
Lemma stopCapture_uploads (backendUrl : string) (env : Env) (w : Worker) :
  capturing w = true ->
  exists r w',
    stopCapture backendUrl env w = (Normal r, w') /\
    recordedChunks w' = flushed w env /\
    uploaded (log w')
    = (uploaded (log w) ++ [new_Blob (flushed w env) "video/webm"])%list.
Proof.
  intros Hcap.
  destruct (stopCapture_world backendUrl env w Hcap)
    as (r & after & -> & _ & Hfetch).
  eexists _, _. split; [reflexivity | ]. split; [reflexivity | ].
  simpl log. rewrite uploaded_app. f_equal.
  change (RecorderStopped :: ?l) with ([RecorderStopped] ++ l)%list.
  rewrite !uploaded_app, uploaded_stopped_tracks. simpl.
  rewrite (uploaded_no_fetch after Hfetch). reflexivity.
Qed.

(** ** Starting and buffering *)

Lemma startCapture_success (streamId : string) (env : Env) (w w' : Worker) :
  startCapture streamId env w = (Normal success_only, w') ->
  exists s,
    getUserMedia env = Resolved s /\
    mediaStream w' = Some s /\
    mediaRecorder w'
    = Some (mkMediaRecorder s "video/webm;codecs=vp9" recording) /\
    recordedChunks w' = [] /\
    log w' = (log w ++ [RecorderStarted 1000])%list.
Proof.
  unfold_worker.
  destruct (getUserMedia env) as [s | e]; simpl; [ | discriminate].
  destruct (new_MediaRecorder_fault env) as [e | ]; simpl; [discriminate | ].
  destruct (start_fault env) as [e | ]; simpl; [discriminate | ].
  intros H. inversion H; subst. exists s. repeat split.
Qed.

Lemma deliver_fields (chunks : list Blob) :
  forall w,
    recordedChunks (deliver chunks w)
    = (recordedChunks w ++ filter nonempty chunks)%list /\
    mediaRecorder (deliver chunks w) = mediaRecorder w /\
    mediaStream (deliver chunks w) = mediaStream w /\
    log (deliver chunks w) = log w.
Proof.
  induction chunks as [ | data rest IH]; intros w; simpl.
  - rewrite app_nil_r. repeat split.
  - destruct (IH (snd (ondataavailable data w))) as (Hc & Hr & Hs & Hl).
    unfold deliver in *. rewrite Hc, Hr, Hs, Hl.
    unfold ondataavailable, when, nonempty.
    destruct (0 <? size data); simpl; repeat split.
    rewrite <- app_assoc. reflexivity.
Qed.

(** C5: whenever the upload fails, by a network fault, a non-success
    status or an exception raised locally, [uploadRecording] creates an
    object URL for the recording, sends a [downloadFallback] message
    carrying that URL and the file name [linkedin_recording_<now>.webm],
    and returns [{success: false, error, savedLocally: true}]; how the
    message's promise settles has no bearing on any of this, since
    nothing awaits it. *)
Theorem C5_upload_failure_falls_back
    (blob : Blob) (backendUrl : string) (env : Env) (w : Worker) (e : string) :
  upload_failure env e ->
  exists r w' request,
    uploadRecording blob backendUrl env w = (Normal r, w') /\
    r = JS.VObj [("success", JS.VBool false);
                 ("error", JS.VStr e);
                 ("savedLocally", JS.VBool true)] /\
    log w'
    = (log w
       ++ [Fetched request;
           ObjectURLCreated blob (createObjectURL env);
           MessageSent
             (JS.VObj [("action", JS.VStr "downloadFallback");
                       ("url", JS.VStr (createObjectURL env));
                       ("filename",
                        JS.VStr ("linkedin_recording_"
                                 ++ JS.num_to_string (now_fallback env)
                                 ++ ".webm"))])])%list /\
    (forall settles,
       uploadRecording blob backendUrl (with_notification settles env) w
       = (Normal r, w')).
Proof.
  intros Hfail.
  eexists _, _, _. split; [ | split; [ | split]].
  - apply uploadRecording_failure. exact Hfail.
  - reflexivity.
  - reflexivity.
  - intros settles.
    assert (Hfail' : upload_failure (with_notification settles env) e).
    { destruct Hfail as [e Hfetch | response Hfetch Hok
                        | response e Hfetch Hok Hjson].
      - apply network_fault. exact Hfetch.
      - apply failure_status; assumption.
      - eapply local_exception; eauto. }
    rewrite (uploadRecording_failure blob backendUrl _ w e Hfail').
    reflexivity.
Qed.

Lemma C5_witness :
  exists r w' request,
    uploadRecording (chunk []) "http://localhost:8000/"
      (sample_env (chunk []) (Resolved server_error)) initial
    = (Normal r, w') /\
    r = JS.VObj [("success", JS.VBool false);
                 ("error", JS.VStr "Upload failed: 500");
                 ("savedLocally", JS.VBool true)] /\
    log w'
    = [Fetched request;
       ObjectURLCreated (chunk []) "blob:chrome-extension://feed-filter/1";
       MessageSent
         (JS.VObj [("action", JS.VStr "downloadFallback");
                   ("url", JS.VStr "blob:chrome-extension://feed-filter/1");
                   ("filename", JS.VStr "linkedin_recording_5001.webm")])] /\
    (forall settles,
       uploadRecording (chunk []) "http://localhost:8000/"
         (with_notification settles
            (sample_env (chunk []) (Resolved server_error))) initial
       = (Normal r, w')).
Proof.
  apply (C5_upload_failure_falls_back
           (chunk []) "http://localhost:8000/"
           (sample_env (chunk []) (Resolved server_error)) initial
           "Upload failed: 500").
  apply (failure_status _ server_error); reflexivity.
Defined.

(** C6: in every run of [stopCapture] that passes the test on the
    recorder, each track of the stream held in [mediaStream] is stopped
    exactly once, and all of that comes before the request of the upload
    is made; this is so whatever the upload's outcome, and afterwards the
    recorder is inactive, so a repeated [stopCapture] does not get past
    the test to stop the tracks again. *)
Theorem C6_tracks_stopped_once_before_upload
    (backendUrl : string) (env : Env) (w : Worker) :
  reachable w ->
  capturing w = true ->
  exists s r w' request after,
    mediaStream w = Some s /\
    stopCapture backendUrl env w = (Normal r, w') /\
    log w'
    = (log w ++ RecorderStopped :: map TrackStopped (getTracks s)
       ++ Fetched request :: after)%list /\
    filter is_TrackStopped after = [] /\
    filter is_Fetched after = [] /\
    capturing w' = false /\
    (forall backendUrl' env',
       log (snd (stopCapture backendUrl' env' w')) = log w').
Proof.
  intros Hreach Hcap.
  destruct (reachable_ok w Hreach) as [_ Hstream].
  destruct (mediaStream w) as [s | ] eqn:Hs.
  2: { exfalso. apply Hstream; [ | reflexivity].
       unfold capturing in Hcap.
       destruct (mediaRecorder w); [discriminate | discriminate]. }
  destruct (stopCapture_world backendUrl env w Hcap)
    as (r & after & Heq & Htracks & Hfetch).
  assert (Hdone : forall rec l1 l2 l3,
             capturing (mkWorker (option_map (set_state inactive) rec)
                                 l1 l2 l3) = false).
  { intros [rec | ] l1 l2 l3; reflexivity. }
  eexists s, r, _, _, after.
  split; [reflexivity | ]. split; [exact Heq | ].
  unfold stopped_tracks. rewrite Hs.
  split; [reflexivity | ]. split; [assumption | ]. split; [assumption | ].
  split; [apply Hdone | ].
  intros backendUrl' env'.
  rewrite stopCapture_not_capturing by apply Hdone. reflexivity.
Qed.

Lemma C6_witness :
  exists s r w' request after,
    mediaStream capturing_worker = Some s /\
    stopCapture "http://localhost:8000"
      (sample_env (chunk []) (Resolved server_error)) capturing_worker
    = (Normal r, w') /\
    log w'
    = (log capturing_worker
       ++ RecorderStopped :: map TrackStopped (getTracks s)
       ++ Fetched request :: after)%list /\
    filter is_TrackStopped after = [] /\
    filter is_Fetched after = [] /\
    capturing w' = false /\
    (forall backendUrl' env',
       log (snd (stopCapture backendUrl' env' w')) = log w').
Proof.
  apply (C6_tracks_stopped_once_before_upload
           "http://localhost:8000"
           (sample_env (chunk []) (Resolved server_error)) capturing_worker).
  - exists [(StartCapture "stream-1",
             sample_env (chunk []) (Resolved server_ok))].
    reflexivity.
  - reflexivity.
Defined.

(** In a capture that a successful [startCapture] begins, the stream
    whose tracks [stopCapture] stops is the one acquired by that start,
    on which the recorder was created. *)
Lemma capture_stops_its_own_stream
    (streamId : string) (env0 : Env) (w0 w1 : Worker)
    (chunks : list Blob) (backendUrl : string) (env : Env) :
  startCapture streamId env0 w0 = (Normal success_only, w1) ->
  exists s r w2 request after,
    getUserMedia env0 = Resolved s /\
    option_map stream (mediaRecorder (deliver chunks w1)) = Some s /\
    stopCapture backendUrl env (deliver chunks w1) = (Normal r, w2) /\
    log w2
    = (log w0 ++ RecorderStarted 1000 :: RecorderStopped
       :: map TrackStopped (getTracks s) ++ Fetched request :: after)%list /\
    filter is_TrackStopped after = [].
Proof.
  intros Hstart.
  destruct (startCapture_success streamId env0 w0 w1 Hstart)
    as (s & Hmedia & Hstream & Hrec & _ & Hlog).
  destruct (deliver_fields chunks w1) as (_ & Hr & Hs & Hl).
  assert (Hcap : capturing (deliver chunks w1) = true).
  { unfold capturing. rewrite Hr, Hrec. reflexivity. }
  destruct (stopCapture_world backendUrl env _ Hcap)
    as (r & after & Heq & Htracks & _).
  eexists s, r, _, _, after.
  split; [exact Hmedia | ]. split; [rewrite Hr, Hrec; reflexivity | ].
  split; [exact Heq | ]. split; [ | exact Htracks].
  simpl log. unfold stopped_tracks. rewrite Hs, Hstream, Hl, Hlog.
  rewrite <- app_assoc. reflexivity.
Qed.

(** C7: the recording [stopCapture] assembles and uploads has as its
    bytes the chunks of the buffer joined in order (for a buffer
    [c1, c2, c3], the bytes of [c1], then [c2], then [c3]); with an
    empty buffer it is a Blob of length zero, which is uploaded like any
    other, the call answering with the upload's result. *)
Theorem C7_artifact_is_concatenation
    (backendUrl : string) (env : Env) (w : Worker) :
  capturing w = true ->
  (forall c1 c2 c3 ty,
     payload (new_Blob [c1; c2; c3] ty)
     = (payload c1 ++ payload c2 ++ payload c3)%list) /\
  exists r w' artifact,
    stopCapture backendUrl env w = (Normal r, w') /\
    recordedChunks w'
    = (recordedChunks w ++ filter nonempty [last_chunk env])%list /\
    uploaded (log w') = (uploaded (log w) ++ [artifact])%list /\
    artifact = new_Blob (recordedChunks w') "video/webm" /\
    payload artifact = List.concat (map payload (recordedChunks w')) /\
    (recordedChunks w' = [] ->
     payload artifact = [] /\ size artifact = 0 /\
     forall response meta,
       fetch_result env = Resolved response ->
       ok response = true ->
       json response = Resolved meta ->
       r = JS.VObj (JS.spread [("success", JS.VBool true)] meta)).
Proof.
  intros Hcap. split.
  { intros c1 c2 c3 ty. simpl. rewrite app_nil_r. reflexivity. }
  destruct (stopCapture_uploads backendUrl env w Hcap)
    as (r & w' & Heq & Hbuf & Hup).
  exists r, w', (new_Blob (flushed w env) "video/webm").
  rewrite Hbuf.
  split; [exact Heq | ]. split; [reflexivity | ]. split; [exact Hup | ].
  split; [reflexivity | ]. split; [reflexivity | ].
  intros Hempty. rewrite Hempty.
  split; [reflexivity | ]. split; [reflexivity | ].
  intros response meta Hfetch Hok Hjson.
  rewrite stopCapture_capturing in Heq by assumption.
  rewrite (uploadRecording_success _ _ _ _ response meta) in Heq
    by assumption.
  inversion Heq. reflexivity.
Qed.

Lemma C7_witness :
  exists r w' artifact,
    stopCapture "http://localhost:8000"
      (sample_env (chunk []) (Resolved server_ok)) capturing_worker
    = (Normal r, w') /\
    recordedChunks w' = [] /\
    uploaded (log w') = [artifact] /\
    payload artifact = [] /\
    size artifact = 0 /\
    r = JS.VObj [("success", JS.VBool true);
                 ("filename", JS.VStr "recording_1.webm")].
Proof.
  destruct (C7_artifact_is_concatenation
              "http://localhost:8000"
              (sample_env (chunk []) (Resolved server_ok)) capturing_worker)
    as (_ & r & w' & artifact & Heq & Hbuf & Hup & _ & _ & Hzero).
  - reflexivity.
  - destruct (Hzero Hbuf) as (Hpayload & Hsize & Hr).
    exists r, w', artifact. split; [exact Heq | ]. split; [exact Hbuf | ].
    split; [exact Hup | ]. split; [exact Hpayload | ].
    split; [exact Hsize | ].
    apply (Hr server_ok
              (JS.VObj [("filename", JS.VStr "recording_1.webm")]));
      reflexivity.
Defined.

(** C9: [uploadRecording] makes one request, a POST to the destination
    with one trailing slash removed, followed by [/upload], whose
    multipart body has the single field [video] holding the recording
    under the file name [recording_<now>.webm]; when the response has a
    success status and a JSON body, the result is [{success: true}] with
    the body's properties spread over it. *)
Theorem C9_upload_request_and_success
    (blob : Blob) (backendUrl : string) (env : Env) (w : Worker) :
  let url := strip_trailing_slash backendUrl in
  (forall d, backendUrl = d ++ "/" -> url = d) /\
  ((forall d, backendUrl <> d ++ "/") -> url = backendUrl) /\
  exists r w' after,
    uploadRecording blob backendUrl env w = (Normal r, w') /\
    log w'
    = (log w
       ++ Fetched (mkRequest (url ++ "/upload") "POST"
                     [mkFormField "video" blob
                        ("recording_" ++ JS.num_to_string (now_upload env)
                         ++ ".webm")])
       :: after)%list /\
    filter is_Fetched after = [] /\
    (forall response meta,
       fetch_result env = Resolved response ->
       ok response = true ->
       json response = Resolved meta ->
       after = [] /\
       r = JS.VObj (JS.spread [("success", JS.VBool true)] meta) /\
       forall k,
         JS.prop r k
         = match JS.lookup k (rev (JS.own_props meta)) with
           | Some v => v
           | None => if (k =? "success")%string then JS.VBool true
                     else JS.VUndefined
           end).
Proof.
  intros url. split; [ | split].
  - intros d ->. apply strip_trailing_slash_slash.
  - apply strip_trailing_slash_other.
  - destruct (upload_succeeds_or_fails env)
      as [(response & meta & Hfetch & Hok & Hjson) | (e & Hfail)].
    + eexists _, _, []. split; [ | split; [ | split]].
      * apply (uploadRecording_success _ _ _ _ response meta); assumption.
      * reflexivity.
      * reflexivity.
      * intros response' meta' Hfetch' Hok' Hjson'.
        rewrite Hfetch in Hfetch'. inversion Hfetch'; subst response'.
        rewrite Hjson in Hjson'. inversion Hjson'; subst meta'.
        split; [reflexivity | ]. split; [reflexivity | ].
        intros k. unfold JS.prop, JS.spread. rewrite lookup_spread. simpl.
        destruct (JS.lookup k (rev (JS.own_props meta))); [reflexivity | ].
        destruct (k =? "success")%string; reflexivity.
    + eexists _, _, _. split; [ | split; [ | split]].
      * apply (uploadRecording_failure _ _ _ _ e). exact Hfail.
      * reflexivity.
      * reflexivity.
      * intros response meta Hfetch Hok Hjson. exfalso.
        destruct Hfail as [e Hf | response' Hf Hok'
                          | response' e Hf Hok' Hjson'];
          rewrite Hfetch in Hf; inversion Hf; subst; congruence.
Qed.

Lemma C9_witness :
  strip_trailing_slash "http://localhost:8000/" = "http://localhost:8000" /\
  exists r w',
    uploadRecording (chunk []) "http://localhost:8000/"
      (sample_env (chunk []) (Resolved server_ok)) initial
    = (Normal r, w') /\
    log w'
    = [Fetched (mkRequest "http://localhost:8000/upload" "POST"
                  [mkFormField "video" (chunk []) "recording_5000.webm"])] /\
    r = JS.VObj [("success", JS.VBool true);
                 ("filename", JS.VStr "recording_1.webm")] /\
    JS.prop r "success" = JS.VBool true /\
    JS.prop r "filename" = JS.VStr "recording_1.webm".
Proof.
  destruct (C9_upload_request_and_success
              (chunk []) "http://localhost:8000/"
              (sample_env (chunk []) (Resolved server_ok)) initial)
    as (Hstrip & _ & r & w' & after & Heq & Hlog & _ & Hsuccess).
  destruct (Hsuccess server_ok
              (JS.VObj [("filename", JS.VStr "recording_1.webm")])
              eq_refl eq_refl eq_refl) as (Hafter & Hr & Hprop).
  split; [apply (Hstrip "http://localhost:8000"); reflexivity | ].
  exists r, w'. split; [exact Heq | ]. split.
  - rewrite Hlog, Hafter. reflexivity.
  - split; [exact Hr | ].
    split; [apply (Hprop "success") | apply (Hprop "filename")].
Defined.

(** C10: the buffer never holds an empty chunk, whatever the worker has
    been sent; a [dataavailable] event whose data has size zero changes
    nothing; and in a capture, from a successful [startCapture] through
    the chunks delivered to the [stopCapture] that ends it, the bytes of
    the recording uploaded are those of the non-empty chunks produced,
    in the order produced. *)
Theorem C10_only_nonempty_chunks_buffered :
  (forall w, reachable w -> Forall (fun b => 0 < size b) (recordedChunks w)) /\
  (forall data w, size data = 0 -> snd (ondataavailable data w) = w) /\
  (forall streamId env0 w0 w1 chunks backendUrl env,
     startCapture streamId env0 w0 = (Normal success_only, w1) ->
     exists r w2 artifact,
       stopCapture backendUrl env (deliver chunks w1) = (Normal r, w2) /\
       recordedChunks w2 = filter nonempty (chunks ++ [last_chunk env]) /\
       uploaded (log w2) = (uploaded (log w0) ++ [artifact])%list /\
       payload artifact
       = List.concat
           (map payload (filter nonempty (chunks ++ [last_chunk env])))).
Proof.
  split; [ | split].
  - intros w Hreach. apply (reachable_ok w Hreach).
  - intros data w Hsize. unfold ondataavailable, when. rewrite Hsize.
    reflexivity.
  - intros streamId env0 w0 w1 chunks backendUrl env Hstart.
    destruct (startCapture_success streamId env0 w0 w1 Hstart)
      as (s & _ & _ & Hrec & Hbuf & Hlog).
    destruct (deliver_fields chunks w1) as (Hc & Hr & _ & Hl).
    assert (Hcap : capturing (deliver chunks w1) = true).
    { unfold capturing. rewrite Hr, Hrec. reflexivity. }
    destruct (stopCapture_uploads backendUrl env _ Hcap)
      as (r & w2 & Heq & Hflush & Hup).
    assert (Hsame : flushed (deliver chunks w1) env
                    = filter nonempty (chunks ++ [last_chunk env])).
    { unfold flushed. rewrite Hc, Hbuf, filter_app. reflexivity. }
    rewrite Hsame in *.
    exists r, w2, (new_Blob (filter nonempty (chunks ++ [last_chunk env]))
                            "video/webm").
    split; [exact Heq | ]. split; [exact Hflush | ]. split; [ | reflexivity].
    rewrite Hup, Hl, Hlog, uploaded_app. simpl. rewrite app_nil_r.
    reflexivity.
Qed.

Lemma C10_witness :
  exists r w2 artifact,
    stopCapture "http://localhost:8000"
      (sample_env (chunk [Byte.x03]) (Resolved server_ok))
      (deliver [chunk [Byte.x01; Byte.x02]; chunk []] capturing_worker)
    = (Normal r, w2) /\
    recordedChunks w2 = [chunk [Byte.x01; Byte.x02]; chunk [Byte.x03]] /\
    uploaded (log w2) = [artifact] /\
    payload artifact = [Byte.x01; Byte.x02; Byte.x03].
Proof.
  apply (proj2 (proj2 C10_only_nonempty_chunks_buffered)
           "stream-1" (sample_env (chunk []) (Resolved server_ok))
           initial capturing_worker
           [chunk [Byte.x01; Byte.x02]; chunk []]
           "http://localhost:8000"
           (sample_env (chunk [Byte.x03]) (Resolved server_ok))).
  reflexivity.
Defined.

End Worker.

(* ------------------------------------------------------------------ *)
(** * Further properties of the coordinator *)

Section CoordinatorFurther.
Import Async Background.

Ltac run_async :=
  cbv [startRecording stopRecording getStatus createOffscreenDocument
       closeOffscreenDocument getContexts sendMessage
       bind ret throw try_catch gets modify await await_unit read_prop when].

(** X1: with no session active, [stopRecording] answers
    [{success: false, error: 'Not recording'}]; it sends nothing to the
    worker and changes nothing, whatever the browser calls would do.
    That is the case in particular right after any [stopRecording] whose
    command the worker answered: stopping twice stops once. *)
Theorem X1_stopRecording_while_idle
    (backendUrl : string) (env : Env) (w : World) :
  isRecording (session w) = false
  \/ (exists backendUrl0 env0 w0 response,
        reply env0 = Resolved response /\
        w = snd (stopRecording backendUrl0 env0 w0)) ->
  stopRecording backendUrl env w
  = (Normal (JS.VObj [("success", JS.VBool false);
                      ("error", JS.VStr "Not recording")]), w).
Proof.
  intros H.
  assert (Hidle : isRecording (session w) = false).
  { destruct H as [H | (backendUrl0 & env0 & w0 & response & Hreply & ->)];
      [exact H | ].
    destruct (isRecording (session w0)) eqn:Hrec.
    - destruct (stopRecording_delegation_answered
                  backendUrl0 env0 w0 response Hrec Hreply)
        as (r & w' & -> & Hs & _).
      simpl. rewrite Hs. reflexivity.
    - rewrite stopRecording_while_idle by assumption. exact Hrec. }
  run_async. rewrite Hidle. reflexivity.
Qed.

Lemma X1_witness :
  stopRecording "http://localhost:8000" (calm 9500 (Rejected "unreachable"))
    (snd (stopRecording "http://localhost:8000"
            (calm 9000 (Resolved success_only)) (recording_since 1000)))
  = (Normal (JS.VObj [("success", JS.VBool false);
                      ("error", JS.VStr "Not recording")]),
     snd (stopRecording "http://localhost:8000"
            (calm 9000 (Resolved success_only)) (recording_since 1000))).
Proof.
  apply (X1_stopRecording_while_idle
           "http://localhost:8000" (calm 9500 (Rejected "unreachable"))
           (snd (stopRecording "http://localhost:8000"
                   (calm 9000 (Resolved success_only))
                   (recording_since 1000)))).
  right.
  exists "http://localhost:8000", (calm 9000 (Resolved success_only)),
    (recording_since 1000), success_only.
  split; reflexivity.
Defined.

(** X2: when the worker answers the stop command and closing the
    document does not fault, [stopRecording] hands the worker's answer
    back unchanged, whatever it is, and leaves the session idle, the
    badge text empty, the document closed and exactly one more message on
    record, the stop command carrying the backend URL. *)
Theorem X2_stopRecording_returns_worker_answer
    (backendUrl : string) (env : Env) (w : World) (response : JS.value) :
  isRecording (session w) = true ->
  reply env = Resolved response ->
  getContexts_fault env = None ->
  closeDocument_fault env = None ->
  stopRecording backendUrl env w
  = (Normal response,
     mkWorld idle "" (badgeBackgroundColor w) false
             (sent w ++ [stopCapture_message backendUrl])%list).
Proof.
  intros Hactive Hreply Hctx Hclose. run_async.
  rewrite Hactive, Hreply. simpl. rewrite Hctx. simpl.
  destruct (offscreenDocument w) eqn:Hdoc; simpl.
  - rewrite Hclose. reflexivity.
  - unfold set_session, setBadgeText, post. simpl. rewrite Hdoc. reflexivity.
Qed.

Lemma X2_witness :
  stopRecording "http://localhost:8000"
    (calm 9000 (Resolved (JS.VObj [("success", JS.VBool false);
                                   ("error", JS.VStr "Upload failed: 500");
                                   ("savedLocally", JS.VBool true)])))
    (recording_since 1000)
  = (Normal (JS.VObj [("success", JS.VBool false);
                      ("error", JS.VStr "Upload failed: 500");
                      ("savedLocally", JS.VBool true)]),
     mkWorld idle "" (badgeBackgroundColor (recording_since 1000)) false
             (sent (recording_since 1000)
              ++ [stopCapture_message "http://localhost:8000"])%list).
Proof.
  apply (X2_stopRecording_returns_worker_answer
           "http://localhost:8000"
           (calm 9000 (Resolved (JS.VObj [("success", JS.VBool false);
                                          ("error", JS.VStr "Upload failed: 500");
                                          ("savedLocally", JS.VBool true)])))
           (recording_since 1000));
    reflexivity.
Defined.

(** X3: a [startRecording] from idle whose browser calls succeed and
    whose reply is truthy on [success] returns that reply and leaves the
    session recording the given tab since the clock reading, the badge
    reading REC on red, the document present, and one more message on
    record: the start command with the stream id just obtained. *)
Theorem X3_startRecording_success
    (tabId : Z) (env : Env) (w : World) (streamId : string)
    (response : JS.value) :
  isRecording (session w) = false ->
  getMediaStreamId env = Resolved streamId ->
  getContexts_fault env = None ->
  (offscreenDocument w = false -> createDocument_fault env = None) ->
  reply env = Resolved response ->
  JS.truthy (JS.prop response "success") = true ->
  startRecording tabId env w
  = (Normal response,
     mkWorld (mkSession true (Some tabId) (Some (now env))) "REC" "#e74c3c"
             true (sent w ++ [startCapture_message streamId])%list).
Proof.
  intros Hidle Hid Hctx Hcreate Hreply Hok. run_async.
  rewrite Hidle, Hid. simpl. rewrite Hctx. simpl.
  destruct (offscreenDocument w) eqn:Hdoc; simpl.
  - rewrite Hreply. simpl.
    destruct response; simpl in Hok; try discriminate.
    simpl. rewrite Hok. simpl.
    unfold set_session, setBadgeText, setBadgeBackgroundColor, post. simpl.
    rewrite Hdoc. reflexivity.
  - rewrite (Hcreate eq_refl). simpl. rewrite Hreply. simpl.
    destruct response; simpl in Hok; try discriminate.
    simpl. rewrite Hok. reflexivity.
Qed.

Lemma X3_witness :
  startRecording 7 (calm 1000 (Resolved success_only)) initial
  = (Normal success_only,
     mkWorld (mkSession true (Some 7) (Some 1000)) "REC" "#e74c3c" true
             [startCapture_message "stream-1"]).
Proof.
  apply (X3_startRecording_success
           7 (calm 1000 (Resolved success_only)) initial "stream-1"
           success_only);
    reflexivity.
Defined.

(** X4: ensuring and closing the offscreen document are guarded by what
    [getContexts] reports.  With the document present,
    [createOffscreenDocument] does nothing and cannot fail on
    [createDocument]; with it absent, [closeOffscreenDocument] does
    nothing and cannot fail on [closeDocument].  Otherwise each brings
    the document to the wanted state, touching nothing else, and a
    second run of the same call is a no-op. *)
Theorem X4_offscreen_document_guards (env : Env) (w : World) :
  getContexts_fault env = None ->
  (offscreenDocument w = true ->
   createOffscreenDocument env w = (Normal tt, w)) /\
  (offscreenDocument w = false ->
   closeOffscreenDocument env w = (Normal tt, w)) /\
  (createDocument_fault env = None ->
   createOffscreenDocument env w = (Normal tt, set_offscreenDocument true w) /\
   createOffscreenDocument env (set_offscreenDocument true w)
   = (Normal tt, set_offscreenDocument true w)) /\
  (closeDocument_fault env = None ->
   closeOffscreenDocument env w = (Normal tt, set_offscreenDocument false w) /\
   closeOffscreenDocument env (set_offscreenDocument false w)
   = (Normal tt, set_offscreenDocument false w)).
Proof.
  intros Hctx. run_async. rewrite Hctx. simpl.
  destruct w as [s text color doc msgs]. simpl.
  split; [intros ->; reflexivity | ].
  split; [intros ->; reflexivity | ].
  split.
  - intros Hcreate. rewrite Hcreate. destruct doc; split; reflexivity.
  - intros Hclose. rewrite Hclose. destruct doc; split; reflexivity.
Qed.

Lemma X4_witness :
  createOffscreenDocument
    (mkEnv 0 (Resolved "stream-1") None
           (Some "Only a single offscreen document may be created.") None
           (Resolved success_only))
    (recording_since 1000)
  = (Normal tt, recording_since 1000).
Proof.
  apply (proj1 (X4_offscreen_document_guards
                  (mkEnv 0 (Resolved "stream-1") None
                         (Some "Only a single offscreen document may be created.")
                         None (Resolved success_only))
                  (recording_since 1000) eq_refl)).
  reflexivity.
Defined.

(** X5: the listener sends a response to every [getStatus],
    [startRecording] and [stopRecording] message, whatever faults occur
    while it is handled, and neither responds to nor acts on a message
    addressed to the offscreen document or carrying another action. *)
Theorem X5_listener_always_answers
    (message : Message) (env : Env) (w : World) :
  match message with
  | ForOffscreen | Other => onMessage message env w = (None, w)
  | GetStatus | StartRecording _ | StopRecording _ =>
      exists r w', onMessage message env w = (Some r, w')
  end.
Proof.
  destruct message as [ | | tabId | backendUrl | ]; simpl;
    try reflexivity.
  - eexists _, _. reflexivity.
  - destruct (isRecording (session w)) eqn:Hrec.
    + rewrite startRecording_while_active by assumption. eauto.
    + destruct (startRecording_from_idle tabId env w Hrec)
        as (r & w' & -> & _). eauto.
  - destruct (isRecording (session w)) eqn:Hrec.
    + destruct (reply env) as [response | e] eqn:Hreply.
      * destruct (stopRecording_delegation_answered backendUrl env w response
                    Hrec Hreply) as (r & w' & -> & _). eauto.
      * rewrite (stopRecording_delegation_rejected backendUrl e env w)
          by assumption. eauto.
    + rewrite stopRecording_while_idle by assumption. eauto.
Qed.

(** X6: once a stop command has been rejected while a session is
    active, the session stays as it was, and from then on every
    [startRecording] is refused as already recording and every
    [stopRecording] whose command is rejected again changes nothing:
    only a stop command that gets an answer ends the session. *)
Theorem X6_rejected_stop_leaves_session_stuck
    (backendUrl e : string) (env : Env) (w : World) :
  isRecording (session w) = true ->
  reply env = Rejected e ->
  let w' := snd (stopRecording backendUrl env w) in
  session w' = session w /\
  badgeText w' = badgeText w /\
  offscreenDocument w' = offscreenDocument w /\
  (forall tabId env',
     startRecording tabId env' w'
     = (Normal (JS.VObj [("success", JS.VBool false);
                         ("error", JS.VStr "Already recording")]), w')) /\
  (forall backendUrl' e' env',
     reply env' = Rejected e' ->
     session (snd (stopRecording backendUrl' env' w')) = session w).
Proof.
  intros Hactive Hreply.
  rewrite (stopRecording_delegation_rejected backendUrl e env w)
    by assumption.
  simpl. repeat split.
  - intros tabId env'. apply startRecording_while_active. exact Hactive.
  - intros backendUrl' e' env' Hreply'.
    rewrite (stopRecording_delegation_rejected backendUrl' e' env')
      by assumption.
    reflexivity.
Qed.

Lemma X6_witness :
  let w' := snd (stopRecording "http://localhost:8000"
                   (calm 9000 (Rejected "Receiving end does not exist."))
                   (recording_since 1000)) in
  session w' = session (recording_since 1000) /\
  badgeText w' = badgeText (recording_since 1000) /\
  offscreenDocument w' = offscreenDocument (recording_since 1000) /\
  (forall tabId env',
     startRecording tabId env' w'
     = (Normal (JS.VObj [("success", JS.VBool false);
                         ("error", JS.VStr "Already recording")]), w')) /\
  (forall backendUrl' e' env',
     reply env' = Rejected e' ->
     session (snd (stopRecording backendUrl' env' w'))
     = session (recording_since 1000)).
Proof.
  apply (X6_rejected_stop_leaves_session_stuck
           "http://localhost:8000" "Receiving end does not exist."
           (calm 9000 (Rejected "Receiving end does not exist."))
           (recording_since 1000));
    reflexivity.
Defined.

(** X7: the status follows the session through its life.  After a
    [startRecording] from idle that reported success, [getStatus] shows
    [isRecording: true] with the tab and the start time of that call;
    after a [stopRecording] whose command the worker answered, it shows
    [{isRecording: false, recordingTabId: null, startTime: null,
    elapsed: 0}] again, whatever the answer was. *)
Theorem X7_status_follows_session
    (tabId : Z) (backendUrl : string) (env1 env2 env3 env4 : Env)
    (w : World) (response : JS.value) :
  isRecording (session w) = false ->
  succeeded (fst (onMessage (StartRecording tabId) env1 w)) = true ->
  reply env3 = Resolved response ->
  let w1 := snd (onMessage (StartRecording tabId) env1 w) in
  let w2 := snd (onMessage (StopRecording backendUrl) env3 w1) in
  fst (onMessage GetStatus env2 w1)
  = Some (JS.VObj [("isRecording", JS.VBool true);
                   ("recordingTabId", JS.VNum tabId);
                   ("startTime", JS.VNum (now env1));
                   ("elapsed", JS.VNum (elapsed (session w1) (now env2)))]) /\
  fst (onMessage GetStatus env4 w2)
  = Some (JS.VObj [("isRecording", JS.VBool false);
                   ("recordingTabId", JS.VNull);
                   ("startTime", JS.VNull);
                   ("elapsed", JS.VNum 0)]).
Proof.
  intros Hidle Hok Hreply. simpl in *.
  destruct (startRecording_from_idle tabId env1 w Hidle)
    as (r & w1 & Heq & [(_ & _ & Hs & _) | (Hfalse & _)]);
    rewrite Heq in *; simpl in *; [ | congruence].
  split.
  - unfold getStatus, bind, gets, ret. simpl. rewrite Hs. reflexivity.
  - assert (Hrec : isRecording (session w1) = true) by (rewrite Hs; reflexivity).
    destruct (stopRecording_delegation_answered backendUrl env3 w1 response
                Hrec Hreply) as (r2 & w2 & Heq2 & Hs2 & _).
    rewrite Heq2. simpl.
    unfold getStatus, bind, gets, ret. simpl. rewrite Hs2. reflexivity.
Qed.

Lemma X7_witness :
  fst (onMessage GetStatus (calm 6500 (Resolved success_only))
         (snd (onMessage (StartRecording 7)
                 (calm 1000 (Resolved success_only)) initial)))
  = Some (JS.VObj [("isRecording", JS.VBool true);
                   ("recordingTabId", JS.VNum 7);
                   ("startTime", JS.VNum 1000);
                   ("elapsed", JS.VNum 5)]) /\
  fst (onMessage GetStatus (calm 9500 (Resolved success_only))
         (snd (onMessage (StopRecording "http://localhost:8000")
                 (calm 9000 (Resolved (failure "No active recording")))
                 (snd (onMessage (StartRecording 7)
                         (calm 1000 (Resolved success_only)) initial)))))
  = Some (JS.VObj [("isRecording", JS.VBool false);
                   ("recordingTabId", JS.VNull);
                   ("startTime", JS.VNull);
                   ("elapsed", JS.VNum 0)]).
Proof.
  apply (X7_status_follows_session
           7 "http://localhost:8000"
           (calm 1000 (Resolved success_only))
           (calm 6500 (Resolved success_only))
           (calm 9000 (Resolved (failure "No active recording")))
           (calm 9500 (Resolved success_only))
           initial (failure "No active recording"));
    reflexivity.
Defined.

(** X8: [startRecording] sends at most one message, the start command
    carrying the stream id it obtained, and only once the offscreen
    document exists; refused as already recording, or failing before the
    document is ensured, it sends nothing. *)
Theorem X8_start_command_only_to_existing_document
    (tabId : Z) (env : Env) (w : World) :
  let w' := snd (startRecording tabId env w) in
  sent w' = sent w
  \/ (exists streamId,
        isRecording (session w) = false /\
        getMediaStreamId env = Resolved streamId /\
        sent w' = (sent w ++ [startCapture_message streamId])%list /\
        offscreenDocument w' = true).
Proof.
  run_async.
  destruct (isRecording (session w)) eqn:Hrec; [left; reflexivity | ].
  destruct (getMediaStreamId env) as [streamId | e]; simpl;
    [ | left; reflexivity].
  destruct (getContexts_fault env) as [e | ]; simpl; [left; reflexivity | ].
  destruct (offscreenDocument w) eqn:Hdoc; simpl.
  - right. exists streamId.
    destruct (reply env) as [response | e]; simpl;
      [ | repeat split; assumption].
    destruct response; simpl; try destruct (JS.truthy _); simpl;
      repeat split; assumption.
  - destruct (createDocument_fault env) as [e | ]; simpl;
      [left; reflexivity | ].
    right. exists streamId.
    destruct (reply env) as [response | e]; simpl; [ | repeat split].
    destruct response; simpl; try destruct (JS.truthy _); simpl;
      repeat split.
Qed.

(** How the badge and the document stand to the session. *)
Lemma badge_follows_session (script : list (Message * Env)) :
  forall w,
    (if isRecording (session w)
     then badgeText w = "REC" /\ offscreenDocument w = true
     else badgeText w = "") ->
    let w' := run script w in
    if isRecording (session w')
    then badgeText w' = "REC" /\ offscreenDocument w' = true
    else badgeText w' = "".
Proof.
  induction script as [ | [message env] rest IH]; intros w Hinv;
    [exact Hinv | ].
  simpl. apply IH. clear IH.
  destruct message as [ | | tabId | backendUrl | ]; simpl; try exact Hinv.
  - destruct (isRecording (session w)) eqn:Hrec.
    + rewrite startRecording_while_active by assumption.
      simpl. rewrite Hrec. exact Hinv.
    + destruct (startRecording_from_idle tabId env w Hrec)
        as (r & w' & -> & [(_ & _ & Hs & Hbadge & Hdoc)
                          | (_ & Hs & Hbadge & _)]); simpl; rewrite Hs.
      * simpl. split; assumption.
      * rewrite Hrec, Hbadge. exact Hinv.
  - destruct (isRecording (session w)) eqn:Hrec.
    + destruct (reply env) as [response | e] eqn:Hreply.
      * destruct (stopRecording_delegation_answered backendUrl env w response
                    Hrec Hreply) as (r & w' & -> & Hs & Hbadge & _).
        simpl. rewrite Hs. exact Hbadge.
      * rewrite (stopRecording_delegation_rejected backendUrl e env w)
          by assumption.
        simpl. rewrite Hrec. exact Hinv.
    + rewrite stopRecording_while_idle by assumption.
      simpl. rewrite Hrec. exact Hinv.
Qed.

(** X9: in every world the coordinator reaches, the badge reads REC
    exactly while a session is active and is empty otherwise, and while
    a session is active the offscreen document the coordinator created
    has not been closed by it; this holds on the fault paths too. *)
Theorem X9_badge_and_document_follow_session (w : World) :
  reachable w ->
  (isRecording (session w) = true ->
   badgeText w = "REC" /\ offscreenDocument w = true) /\
  (isRecording (session w) = false -> badgeText w = "").
Proof.
  intros [script <-].
  pose proof (badge_follows_session script initial eq_refl) as Hinv.
  cbv zeta in Hinv.
  destruct (isRecording (session (run script initial)));
    split; intros; (assumption || discriminate).
Qed.

Lemma X9_witness :
  badgeText
    (run [(StartRecording 7, calm 1000 (Resolved success_only));
          (StopRecording "http://localhost:8000",
           calm 9000 (Rejected "Receiving end does not exist."))]
         initial) = "REC" /\
  offscreenDocument
    (run [(StartRecording 7, calm 1000 (Resolved success_only));
          (StopRecording "http://localhost:8000",
           calm 9000 (Rejected "Receiving end does not exist."))]
         initial) = true.
Proof.
  apply (X9_badge_and_document_follow_session
           (run [(StartRecording 7, calm 1000 (Resolved success_only));
                 (StopRecording "http://localhost:8000",
                  calm 9000 (Rejected "Receiving end does not exist."))]
                initial)).
  - eexists. reflexivity.
  - reflexivity.
Defined.

End CoordinatorFurther.

(* ------------------------------------------------------------------ *)
(** * Further properties of the capture worker *)

Section WorkerFurther.
Import Async Offscreen Trace.

Ltac run_worker :=
  cbv [startCapture stopCapture onstop uploadRecording ondataavailable
       bind ret throw try_catch gets modify await await_unit when].

(** X10: [startCapture] answers [{success: true}] exactly when the
    stream was acquired and the recorder was created and started; the
    worker is then capturing that stream with an empty buffer, whatever
    it held before, having asked the recorder for one chunk per 1000 ms. *)
Theorem X10_startCapture_succeeds_iff
    (streamId : string) (env : Env) (w : Worker) :
  (fst (startCapture streamId env w) = Normal success_only <->
   (exists s, getUserMedia env = Resolved s) /\
   new_MediaRecorder_fault env = None /\
   start_fault env = None) /\
  (forall s,
     getUserMedia env = Resolved s ->
     new_MediaRecorder_fault env = None ->
     start_fault env = None ->
     snd (startCapture streamId env w)
     = mkWorker (Some (mkMediaRecorder s "video/webm;codecs=vp9" recording))
                [] (Some s) (log w ++ [RecorderStarted 1000])).
Proof.
  run_worker. split.
  - destruct (getUserMedia env) as [s | e]; simpl.
    2: { split; [discriminate | intros [[s Hs] _]; discriminate]. }
    destruct (new_MediaRecorder_fault env) as [e | ]; simpl.
    { split; [discriminate | intros (_ & H & _); discriminate]. }
    destruct (start_fault env) as [e | ]; simpl.
    { split; [discriminate | intros (_ & _ & H); discriminate]. }
    split; [intros _; eauto | reflexivity].
  - intros s -> -> ->. reflexivity.
Qed.

Lemma X10_witness :
  snd (startCapture "stream-1" (sample_env (chunk []) (Resolved server_ok))
         (mkWorker None [chunk [Byte.x01]] None []))
  = mkWorker (Some (mkMediaRecorder tab_stream "video/webm;codecs=vp9"
                      recording))
             [] (Some tab_stream) [RecorderStarted 1000].
Proof.
  apply (proj2 (X10_startCapture_succeeds_iff
                  "stream-1" (sample_env (chunk []) (Resolved server_ok))
                  (mkWorker None [chunk [Byte.x01]] None []))
           tab_stream);
    reflexivity.
Defined.

(** The log is left alone by a [startCapture] that does not succeed. *)
Lemma failed_startCapture_log (streamId : string) (env : Env) (w : Worker) :
  fst (startCapture streamId env w) <> Normal success_only ->
  log (snd (startCapture streamId env w)) = log w.
Proof.
  run_worker.
  destruct (getUserMedia env) as [s | e]; simpl; [ | reflexivity].
  destruct (new_MediaRecorder_fault env) as [e | ]; simpl; [reflexivity | ].
  destruct (start_fault env) as [e | ]; simpl; [reflexivity | ].
  intros H. contradiction H. reflexivity.
Qed.

(** X11: a [startCapture] that fails answers [{success: false, error}]
    and releases nothing: it stops no track and records no effect.  If
    [getUserMedia] itself was rejected the worker is exactly as before;
    if a later step faulted, the stream just acquired stays in
    [mediaStream], live, and the buffer has been emptied. *)
Theorem X11_failed_startCapture_releases_nothing
    (streamId : string) (env : Env) (w : Worker) :
  fst (startCapture streamId env w) <> Normal success_only ->
  let w' := snd (startCapture streamId env w) in
  (exists e, fst (startCapture streamId env w) = Normal (failure e)) /\
  log w' = log w /\
  (forall e, getUserMedia env = Rejected e -> w' = w) /\
  (forall s, getUserMedia env = Resolved s ->
             mediaStream w' = Some s /\ recordedChunks w' = []).
Proof.
  run_worker.
  destruct (getUserMedia env) as [s | e]; simpl.
  2: { intros _. split; [eauto | ]. split; [reflexivity | ].
       split; [reflexivity | discriminate]. }
  destruct (new_MediaRecorder_fault env) as [e | ]; simpl.
  { intros _. split; [eauto | ]. split; [reflexivity | ].
    split; [discriminate | ]. intros s' [= <-]. split; reflexivity. }
  destruct (start_fault env) as [e | ]; simpl.
  { intros _. split; [eauto | ]. split; [reflexivity | ].
    split; [discriminate | ]. intros s' [= <-]. split; reflexivity. }
  intros H. contradiction H. reflexivity.
Qed.

Lemma X11_witness :
  let env := mkEnv (Resolved tab_stream) (Some "mimeType is not supported")
                   None (chunk []) 0 (Resolved server_ok) 0 "blob:1"
                   (Rejected "no receiver") in
  let w' := snd (startCapture "stream-1" env capturing_worker) in
  (exists e, fst (startCapture "stream-1" env capturing_worker)
             = Normal (failure e)) /\
  log w' = log capturing_worker /\
  (forall e, getUserMedia env = Rejected e -> w' = capturing_worker) /\
  (forall s, getUserMedia env = Resolved s ->
             mediaStream w' = Some s /\ recordedChunks w' = []).
Proof.
  apply (X11_failed_startCapture_releases_nothing
           "stream-1"
           (mkEnv (Resolved tab_stream) (Some "mimeType is not supported")
                  None (chunk []) 0 (Resolved server_ok) 0 "blob:1"
                  (Rejected "no receiver"))
           capturing_worker).
  simpl. discriminate.
Defined.

(** X12: on a worker that is not capturing, a [startCapture] that fails
    leaves it not capturing, so the [stopCapture] that follows answers
    [{success: false, error: 'No active recording'}], makes no request
    and stops no track: a stream acquired by the failed start is not
    released by stopping either. *)
Theorem X12_failed_start_then_stop
    (streamId backendUrl : string) (env env' : Env) (w : Worker) :
  capturing w = false ->
  fst (startCapture streamId env w) <> Normal success_only ->
  let w' := snd (startCapture streamId env w) in
  stopCapture backendUrl env' w'
  = (Normal (JS.VObj [("success", JS.VBool false);
                      ("error", JS.VStr "No active recording")]), w') /\
  log w' = log w.
Proof.
  intros Hcap Hfail.
  assert (Hstill : capturing (snd (startCapture streamId env w)) = false).
  { revert Hfail. run_worker.
    destruct (getUserMedia env) as [s | e]; simpl; [ | intros _; exact Hcap].
    destruct (new_MediaRecorder_fault env) as [e | ]; simpl;
      [intros _; exact Hcap | ].
    destruct (start_fault env) as [e | ]; simpl; [reflexivity | ].
    intros H. contradiction H. reflexivity. }
  cbv zeta. split.
  - apply stopCapture_not_capturing. exact Hstill.
  - apply failed_startCapture_log. exact Hfail.
Qed.

Lemma X12_witness :
  let env := mkEnv (Resolved tab_stream) None (Some "InvalidStateError")
                   (chunk []) 0 (Resolved server_ok) 0 "blob:1"
                   (Rejected "no receiver") in
  let w' := snd (startCapture "stream-1" env initial) in
  stopCapture "http://localhost:8000" env w'
  = (Normal (JS.VObj [("success", JS.VBool false);
                      ("error", JS.VStr "No active recording")]), w') /\
  log w' = log initial.
Proof.
  apply (X12_failed_start_then_stop
           "stream-1" "http://localhost:8000"
           (mkEnv (Resolved tab_stream) None (Some "InvalidStateError")
                  (chunk []) 0 (Resolved server_ok) 0 "blob:1"
                  (Rejected "no receiver"))
           (mkEnv (Resolved tab_stream) None (Some "InvalidStateError")
                  (chunk []) 0 (Resolved server_ok) 0 "blob:1"
                  (Rejected "no receiver"))
           initial).
  - reflexivity.
  - simpl. discriminate.
Defined.

(** X13: the worker's listener answers every [startCapture] and
    [stopCapture] message, whatever faults occur while it is handled
    (the promise [stopCapture] returns always resolves), and neither
    answers nor acts on a message not addressed to it or carrying
    another action. *)
Theorem X13_worker_always_answers (input : Input) (env : Env) (w : Worker) :
  match input with
  | NotForOffscreen | OtherAction => handle input env w = (None, w)
  | StartCapture _ | StopCapture _ =>
      exists r w', handle input env w = (Some r, w')
  | DataAvailable _ => fst (handle input env w) = None
  end.
Proof.
  destruct input as [ | streamId | backendUrl | | data]; simpl;
    try reflexivity.
  - run_worker.
    destruct (getUserMedia env) as [s | e]; simpl; [ | eauto].
    destruct (new_MediaRecorder_fault env) as [e | ]; simpl; [eauto | ].
    destruct (start_fault env) as [e | ]; simpl; eauto.
  - destruct (capturing w) eqn:Hcap.
    + destruct (stopCapture_world backendUrl env w Hcap)
        as (r & after & -> & _). eauto.
    + rewrite stopCapture_not_capturing by assumption. eauto.
Qed.

(** ** One upload for each stop *)

Lemma count_app (kind : Event -> bool) (a b : list Event) :
  count kind (a ++ b) = (count kind a + count kind b)%nat.
Proof. unfold count. rewrite filter_app, length_app. reflexivity. Qed.

Lemma count_stopped_tracks (kind : Event -> bool) (w : Worker) :
  (forall t, kind (TrackStopped t) = false) ->
  count kind (stopped_tracks w) = 0%nat.
Proof.
  intros Hkind. unfold stopped_tracks, count.
  destruct (mediaStream w) as [s | ]; [ | reflexivity].
  induction (getTracks s) as [ | t rest IH]; [reflexivity | ].
  simpl. rewrite Hkind. exact IH.
Qed.

Lemma capturing_stopped (r : option MediaRecorder) chunks s events :
  capturing (mkWorker (option_map (set_state inactive) r) chunks s events)
  = false.
Proof. destruct r; reflexivity. Qed.

Lemma stopCapture_balanced (backendUrl : string) (env : Env) (w : Worker) :
  balanced w -> balanced (snd (stopCapture backendUrl env w)).
Proof.
  intros Hbal. destruct (capturing w) eqn:Hcap.
  2: { rewrite stopCapture_not_capturing by assumption. exact Hbal. }
  destruct Hbal as (Hfetch & Hurl & Hmsg & Hrec). rewrite Hcap in Hrec.
  rewrite stopCapture_capturing by assumption.
  destruct (upload_succeeds_or_fails env)
    as [(response & meta & Hf & Hok & Hjson) | (e & Hfail)].
  - rewrite (uploadRecording_success _ _ _ _ response meta) by assumption.
    unfold balanced, emit. simpl snd. simpl log. simpl mediaRecorder.
    rewrite capturing_stopped.
    change (RecorderStopped :: stopped_tracks w)
      with ([RecorderStopped] ++ stopped_tracks w)%list.
    rewrite !count_app, !count_stopped_tracks by reflexivity.
    unfold count in *. simpl. lia.
  - rewrite (uploadRecording_failure _ _ _ _ e) by assumption.
    unfold balanced, emit. simpl snd. simpl log. simpl mediaRecorder.
    rewrite capturing_stopped.
    change (RecorderStopped :: stopped_tracks w)
      with ([RecorderStopped] ++ stopped_tracks w)%list.
    rewrite !count_app, !count_stopped_tracks by reflexivity.
    unfold count in *. simpl. lia.
Qed.

Lemma startCapture_balanced (streamId : string) (env : Env) (w : Worker) :
  balanced w -> balanced (snd (startCapture streamId env w)).
Proof.
  intros (Hfetch & Hurl & Hmsg & Hrec). run_worker.
  destruct (getUserMedia env) as [s | e]; simpl;
    [ | repeat split; assumption].
  destruct (new_MediaRecorder_fault env) as [e | ]; simpl.
  { repeat split; assumption. }
  destruct (start_fault env) as [e | ]; simpl.
  - unfold balanced. simpl.
    repeat split; try assumption.
    destruct (capturing w); lia.
  - unfold balanced. simpl. rewrite !count_app.
    unfold count in *. simpl.
    destruct (capturing w); lia.
Qed.

Lemma run_balanced (script : list (Input * Env)) :
  forall w, balanced w -> balanced (run script w).
Proof.
  induction script as [ | [input env] rest IH]; intros w Hbal;
    [exact Hbal | ].
  simpl. apply IH. clear IH.
  destruct input as [ | streamId | backendUrl | | data]; simpl;
    try exact Hbal.
  - pose proof (startCapture_balanced streamId env w Hbal) as H.
    destruct (startCapture streamId env w) as [[r | e] w']; exact H.
  - pose proof (stopCapture_balanced backendUrl env w Hbal) as H.
    destruct (stopCapture backendUrl env w) as [[r | e] w']; exact H.
  - unfold ondataavailable, when.
    destruct (0 <? size data); simpl; exact Hbal.
Qed.

(** X14: whatever the worker has been sent, its trace holds exactly one
    request for each time a recorder was stopped (an upload is never
    retried and never skipped), as many fallback notifications as object
    URLs and no more of them than requests, and no more recorder stops
    than recorder starts. *)
Theorem X14_one_upload_per_stop (w : Worker) :
  reachable w ->
  count is_Fetched (log w) = count is_RecorderStopped (log w) /\
  count is_ObjectURLCreated (log w) = count is_MessageSent (log w) /\
  (count is_MessageSent (log w) <= count is_Fetched (log w))%nat /\
  (count is_RecorderStopped (log w) <= count is_RecorderStarted (log w))%nat.
Proof.
  intros [script <-].
  assert (Hinit : balanced initial).
  { unfold balanced, count. simpl. repeat split; lia. }
  destruct (run_balanced script initial Hinit) as (Hf & Hu & Hm & Hr).
  repeat split; try assumption.
  destruct (capturing (run script initial)); lia.
Qed.

Lemma X14_witness :
  let w := run [(StartCapture "stream-1",
                 sample_env (chunk []) (Resolved server_ok));
                (StopCapture "http://localhost:8000",
                 sample_env (chunk [Byte.x01]) (Resolved server_error));
                (StopCapture "http://localhost:8000",
                 sample_env (chunk []) (Resolved server_ok))]
               initial in
  count is_Fetched (log w) = count is_RecorderStopped (log w) /\
  count is_ObjectURLCreated (log w) = count is_MessageSent (log w) /\
  (count is_MessageSent (log w) <= count is_Fetched (log w))%nat /\
  (count is_RecorderStopped (log w) <= count is_RecorderStarted (log w))%nat.
Proof.
  apply (X14_one_upload_per_stop
           (run [(StartCapture "stream-1",
                  sample_env (chunk []) (Resolved server_ok));
                 (StopCapture "http://localhost:8000",
                  sample_env (chunk [Byte.x01]) (Resolved server_error));
                 (StopCapture "http://localhost:8000",
                  sample_env (chunk []) (Resolved server_ok))]
                initial)).
  eexists. reflexivity.
Defined.

(** ** The result literal of a successful upload *)

Lemma obj_set_fresh (k : string) (v : JS.value) props :
  ~ In k (keys props) -> JS.obj_set k v props = (props ++ [(k, v)])%list.
Proof.
  induction props as [ | [k0 v0] rest IH]; intros Hfresh; [reflexivity | ].
  simpl in *. destruct (String.eqb_spec k k0) as [-> | Hne].
  - exfalso. apply Hfresh. left. reflexivity.
  - rewrite IH; [reflexivity | ]. intros Hin. apply Hfresh. right. exact Hin.
Qed.

Lemma lookup_not_key (k : string) props :
  ~ In k (keys props) -> JS.lookup k props = None.
Proof.
  induction props as [ | [k0 v0] rest IH]; intros Hfresh; [reflexivity | ].
  simpl in *. destruct (String.eqb_spec k k0) as [-> | Hne].
  - exfalso. apply Hfresh. left. reflexivity.
  - apply IH. intros Hin. apply Hfresh. right. exact Hin.
Qed.

(** Spreading a source with distinct keys over a literal that starts
    with the key [k0]: [k0] stays in front, with the source's value if it
    has one, and the source's other properties follow in their order. *)
Lemma spread_keeps_front (src : list (string * JS.value)) :
  forall k0 v0 rest,
    NoDup (keys src) ->
    ~ In k0 (keys rest) ->
    (forall k, In k (keys src) -> ~ In k (keys rest)) ->
    fold_left (fun acc kv => JS.obj_set (fst kv) (snd kv) acc) src
              ((k0, v0) :: rest)
    = ((k0, match JS.lookup k0 src with Some v => v | None => v0 end)
       :: rest ++ filter (is_not_key k0) src)%list.
Proof.
  induction src as [ | [k v] src IH]; intros k0 v0 rest Hnodup Hk0 Hdisj.
  - simpl. rewrite app_nil_r. reflexivity.
  - simpl in Hnodup. inversion Hnodup as [ | ? ? Hnotin Hnodup']; subst.
    simpl fold_left. simpl JS.lookup. simpl filter.
    unfold is_not_key at 1. simpl fst.
    destruct (String.eqb_spec k k0) as [-> | Hne].
    + rewrite String.eqb_refl. simpl.
      rewrite IH; try assumption.
      * rewrite (lookup_not_key k0 src Hnotin). reflexivity.
      * intros k' Hin. apply Hdisj. right. exact Hin.
    + destruct (String.eqb_spec k0 k) as [Heq | _]; [congruence | ].
      simpl.
      rewrite obj_set_fresh by (apply Hdisj; left; reflexivity).
      rewrite IH; try assumption.
      * rewrite <- app_assoc. reflexivity.
      * unfold keys. rewrite map_app, in_app_iff. simpl.
        intros [Hin | [Heq | []]]; [contradiction | congruence].
      * intros k' Hin. unfold keys. rewrite map_app, in_app_iff. simpl.
        intros [Hin' | [Heq | []]].
        -- apply (Hdisj k'); [right; exact Hin | exact Hin'].
        -- subst k'. contradiction.
Qed.

(** X15: on a success status with a JSON body whose own properties have
    distinct names, none of them written with digits only (so that none
    is an array index, which leaves out non-empty arrays and strings),
    the result of the upload is the body with [success] moved to the
    front: [success] holds the body's value for it if the body has one,
    and [true] otherwise, and the body's other properties follow
    unchanged and in order.  So a body without own properties (null, a
    number, an empty object) gives [{success: true}], and a body that
    itself says [success: false] is returned as a failure. *)
Theorem X15_success_result_is_body_behind_success
    (blob : Blob) (backendUrl : string) (env : Env) (w : Worker)
    (response : Response) (meta : JS.value) :
  fetch_result env = Resolved response ->
  ok response = true ->
  json response = Resolved meta ->
  NoDup (keys (JS.own_props meta)) ->
  enumerated_as_listed (JS.own_props meta) = true ->
  fst (uploadRecording blob backendUrl env w)
  = Normal
      (JS.VObj
         (("success",
           match JS.lookup "success" (JS.own_props meta) with
           | Some v => v
           | None => JS.VBool true
           end)
          :: filter (is_not_key "success") (JS.own_props meta))).
Proof.
  intros Hfetch Hok Hjson Hnodup _.
  rewrite (uploadRecording_success blob backendUrl env w response meta)
    by assumption.
  simpl fst. unfold JS.spread.
  rewrite spread_keeps_front; try assumption.
  - reflexivity.
  - intros [].
  - intros k _ [].
Qed.

Lemma X15_witness :
  fst (uploadRecording (chunk []) "http://localhost:8000"
         (sample_env (chunk [])
            (Resolved (mkResponse true 200
                         (Resolved (JS.VObj [("filename", JS.VStr "a.webm");
                                             ("success", JS.VBool false);
                                             ("frames", JS.VNum 12)])))))
         initial)
  = Normal (JS.VObj [("success", JS.VBool false);
                     ("filename", JS.VStr "a.webm");
                     ("frames", JS.VNum 12)]).
Proof.
  apply (X15_success_result_is_body_behind_success
           (chunk []) "http://localhost:8000"
           (sample_env (chunk [])
              (Resolved (mkResponse true 200
                           (Resolved (JS.VObj [("filename", JS.VStr "a.webm");
                                               ("success", JS.VBool false);
                                               ("frames", JS.VNum 12)])))))
           initial
           (mkResponse true 200
              (Resolved (JS.VObj [("filename", JS.VStr "a.webm");
                                  ("success", JS.VBool false);
                                  ("frames", JS.VNum 12)])))
           (JS.VObj [("filename", JS.VStr "a.webm");
                     ("success", JS.VBool false);
                     ("frames", JS.VNum 12)])).
  - reflexivity.
  - reflexivity.
  - reflexivity.
  - simpl. repeat constructor; simpl; intuition discriminate.
  - reflexivity.
Defined.

(** ** Bytes and names *)

Lemma empty_chunk_payload (b : Blob) : nonempty b = false -> payload b = [].
Proof.
  unfold nonempty, size. intros H.
  destruct (payload b) as [ | x rest]; [reflexivity | ].
  simpl List.length in H.
  destruct (Z.ltb_spec 0 (Z.of_nat (S (List.length rest)))); [discriminate | lia].
Qed.

(** X16: leaving empty chunks out of the buffer loses nothing: the Blob
    built from the non-empty chunks has the same bytes as the Blob built
    from all of them, and the size of a Blob built from parts is the sum
    of the parts' sizes. *)
Theorem X16_blob_bytes_and_size (parts : list Blob) (type : string) :
  payload (new_Blob (filter nonempty parts) type)
  = payload (new_Blob parts type) /\
  size (new_Blob parts type) = total_size parts.
Proof.
  split.
  - simpl. induction parts as [ | b rest IH]; [reflexivity | ].
    simpl. destruct (nonempty b) eqn:Hb; simpl.
    + rewrite IH. reflexivity.
    + rewrite (empty_chunk_payload b Hb). exact IH.
  - unfold size. simpl.
    induction parts as [ | b rest IH]; [reflexivity | ].
    simpl. rewrite length_app, Nat2Z.inj_add, IH. reflexivity.
Qed.

Lemma string_length_append (a b : string) :
  String.length (a ++ b) = (String.length a + String.length b)%nat.
Proof. induction a as [ | c a IH]; simpl; [reflexivity | rewrite IH; reflexivity]. Qed.

Lemma append_cancel_right (suffix : string) :
  forall a b, a ++ suffix = b ++ suffix -> a = b.
Proof.
  induction a as [ | c a IH]; intros [ | c' b] Heq; simpl in Heq.
  - reflexivity.
  - apply (f_equal String.length) in Heq. simpl in Heq.
    rewrite string_length_append in Heq. lia.
  - apply (f_equal String.length) in Heq. simpl in Heq.
    rewrite string_length_append in Heq. lia.
  - inversion Heq; subst. f_equal. apply IH. assumption.
Qed.

Lemma num_to_string_injective (a b : Z) :
  JS.num_to_string a = JS.num_to_string b -> a = b.
Proof.
  unfold JS.num_to_string. intros Heq.
  assert (Hparse : forall z,
             NilZero.int_of_string (NilZero.string_of_int (Z.to_int z))
             = Some (Z.to_int z)).
  { intros z. apply NilZero.isi; destruct z as [ | p | p]; simpl;
      try discriminate;
      intros [= H]; exact (DecimalPos.Unsigned.to_uint_nonnil p H). }
  pose proof (Hparse a) as Ha. rewrite Heq, Hparse in Ha.
  inversion Ha as [Hint]. symmetry. apply DecimalZ.to_int_inj. exact Hint.
Qed.

(** X17: the file names are injective in the clock reading: two uploads
    at different readings carry different names, and so do two fallback
    saves; and a name sent to the server is never a name used for a
    fallback save. *)
Theorem X17_file_names_distinct (a b : Z) :
  a <> b ->
  upload_filename a <> upload_filename b /\
  fallback_filename a <> fallback_filename b /\
  upload_filename a <> fallback_filename b.
Proof.
  intros Hne. unfold upload_filename, fallback_filename.
  split; [ | split].
  - intros Heq. apply Hne, num_to_string_injective.
    simpl in Heq. inversion Heq as [Hrest].
    apply (append_cancel_right ".webm"). exact Hrest.
  - intros Heq. apply Hne, num_to_string_injective.
    simpl in Heq. inversion Heq as [Hrest].
    apply (append_cancel_right ".webm"). exact Hrest.
  - simpl. discriminate.
Qed.

Lemma X17_witness :
  upload_filename 1700000000000 <> upload_filename 1700000000001 /\
  fallback_filename 1700000000000 <> fallback_filename 1700000000001 /\
  upload_filename 1700000000000 <> fallback_filename 1700000000001.
Proof.
  apply (X17_file_names_distinct 1700000000000 1700000000001).
  discriminate.
Defined.

(** X18: the buffer only ever grows, except at [startCapture].  A
    [dataavailable] event and a [stopCapture] leave every chunk already
    buffered in place and add at most non-empty chunks after them (the
    buffer is not cleared when the recording is uploaded); a
    [startCapture] either empties the buffer or leaves the worker
    untouched; other messages change nothing. *)
Theorem X18_buffer_grows_until_next_start
    (input : Input) (env : Env) (w : Worker) :
  let w' := snd (handle input env w) in
  match input with
  | StartCapture _ => recordedChunks w' = [] \/ w' = w
  | _ => exists added,
           recordedChunks w' = (recordedChunks w ++ added)%list /\
           Forall (fun b => 0 < size b) added
  end.
Proof.
  destruct input as [ | streamId | backendUrl | | data]; simpl.
  - exists []. rewrite app_nil_r. split; [reflexivity | constructor].
  - assert (H : recordedChunks (snd (startCapture streamId env w)) = []
                \/ snd (startCapture streamId env w) = w).
    { run_worker.
      destruct (getUserMedia env) as [s | e]; simpl; [ | right; reflexivity].
      destruct (new_MediaRecorder_fault env) as [e | ]; simpl;
        [left; reflexivity | ].
      destruct (start_fault env) as [e | ]; simpl; left; reflexivity. }
    destruct (startCapture streamId env w) as [[r | e] w']; exact H.
  - assert (H : exists added,
               recordedChunks (snd (stopCapture backendUrl env w))
               = (recordedChunks w ++ added)%list /\
               Forall (fun b => 0 < size b) added).
    { destruct (capturing w) eqn:Hcap.
      - destruct (stopCapture_world backendUrl env w Hcap)
          as (r & after & -> & _).
        exists (filter nonempty [last_chunk env]). split; [reflexivity | ].
        simpl. unfold nonempty.
        destruct (Z.ltb_spec 0 (size (last_chunk env)));
          repeat constructor. assumption.
      - rewrite stopCapture_not_capturing by assumption.
        exists []. rewrite app_nil_r. split; [reflexivity | constructor]. }
    destruct (stopCapture backendUrl env w) as [[r | e] w']; exact H.
  - exists []. rewrite app_nil_r. split; [reflexivity | constructor].
  - unfold ondataavailable, when.
    destruct (Z.ltb_spec 0 (size data)); simpl.
    + exists [data]. split; [reflexivity | repeat constructor; assumption].
    + exists []. rewrite app_nil_r. split; [reflexivity | constructor].
Qed.

End WorkerFurther.

(* ------------------------------------------------------------------ *)
(** * Properties of the popup *)

Section PopupProperties.
Import Async Popup.

(** ** The timer text *)

(** Strings that agree after appending suffixes of one length agree
    part by part. *)
Lemma append_split (a b s t : string) :
  String.length s = String.length t ->
  a ++ s = b ++ t -> a = b /\ s = t.
Proof.
  revert b. induction a as [ | c a IH]; intros [ | c' b] Hlen Heq;
    simpl in Heq.
  - split; [reflexivity | exact Heq].
  - apply (f_equal String.length) in Heq. simpl in Heq.
    rewrite string_length_append in Heq. lia.
  - apply (f_equal String.length) in Heq. simpl in Heq.
    rewrite string_length_append in Heq. lia.
  - inversion Heq; subst.
    destruct (IH b Hlen) as [-> ->]; [assumption | split; reflexivity].
Qed.

(** The number a padded rendering stands for. *)
Lemma padded_number (n : Z) :
  0 <= n ->
  option_map Z.of_int
    (NilZero.int_of_string (padStart 2 "0" (JS.num_to_string n)))
  = Some n.
Proof.
  intros Hn. unfold JS.num_to_string.
  assert (Hparse : NilZero.int_of_string (NilZero.string_of_int (Z.to_int n))
                   = Some (Z.to_int n)).
  { apply NilZero.isi; destruct n as [ | p | p]; simpl; try discriminate;
      intros [= H]; exact (DecimalPos.Unsigned.to_uint_nonnil p H). }
  unfold padStart.
  destruct (NilZero.string_of_int (Z.to_int n)) as [ | c [ | c' rest]] eqn:Hs.
  - discriminate Hparse.
  - change (replicate (2 - String.length (String c "")) "0" ++ String c "")
      with (String "0" (String c "")).
    change (NilZero.int_of_string (String "0" (String c "")))
      with (option_map Decimal.Pos
              (uint_of_char "0" (uint_of_char c (Some Decimal.Nil)))).
    change (NilZero.int_of_string (String c ""))
      with (if (c =? "-")%char then None
            else option_map Decimal.Pos (uint_of_char c (Some Decimal.Nil)))
      in Hparse.
    destruct (c =? "-")%char; [discriminate | ].
    destruct (uint_of_char c (Some Decimal.Nil)) as [d | ]; [ | discriminate].
    simpl in Hparse. inversion Hparse as [Hint].
    pose proof (DecimalZ.of_to n) as Hof. rewrite <- Hint in Hof.
    simpl. f_equal. exact Hof.
  - change (replicate (2 - String.length (String c (String c' rest))) "0"
            ++ String c (String c' rest))
      with (String c (String c' rest)).
    rewrite Hparse. simpl. f_equal. apply DecimalZ.of_to.
Qed.

Lemma padded_injective (m n : Z) :
  0 <= m -> 0 <= n ->
  padStart 2 "0" (JS.num_to_string m) = padStart 2 "0" (JS.num_to_string n) ->
  m = n.
Proof.
  intros Hm Hn Heq.
  pose proof (padded_number m Hm) as Pm. rewrite Heq, padded_number in Pm
    by assumption.
  congruence.
Qed.

Lemma replicate_length (n : nat) (c : ascii) :
  String.length (replicate n c) = n.
Proof. induction n as [ | n IH]; simpl; [reflexivity | rewrite IH; reflexivity]. Qed.

Lemma padStart_length (n : nat) (c : ascii) (s : string) :
  String.length (padStart n c s) = Nat.max n (String.length s).
Proof.
  unfold padStart. rewrite string_length_append, replicate_length. lia.
Qed.

Lemma at_most_two_digits (r : Z) :
  0 <= r < 100 -> (String.length (JS.num_to_string r) <= 2)%nat.
Proof.
  intros Hr. rewrite <- (Z2Nat.id r) by lia.
  assert (Hk : (Z.to_nat r < 100)%nat) by lia.
  remember (Z.to_nat r) as k eqn:Heqk. clear Heqk Hr.
  do 100 (destruct k as [ | k]; [vm_compute; lia | ]).
  lia.
Qed.

(** X19: for a number of seconds that is not negative, the timer shows
    the minutes and the seconds of the minute separated by a colon, the
    seconds always on two characters and the minutes on at least two;
    below a hundred minutes the text is five characters long (beyond,
    the minutes take more: there is no hours field); and two different
    numbers of seconds never show the same text. *)
Theorem X19_timer_text_reads_back (a b : Z) :
  0 <= a -> 0 <= b ->
  (exists mm ss,
     timer_text a = mm ++ ":" ++ ss /\
     String.length ss = 2%nat /\ (2 <= String.length mm)%nat) /\
  (a < 6000 -> String.length (timer_text a) = 5%nat) /\
  (timer_text a = timer_text b -> a = b).
Proof.
  intros Ha Hb.
  assert (Hss : forall s, 0 <= s ->
            String.length (padStart 2 "0" (JS.num_to_string (Z.rem s 60)))
            = 2%nat).
  { intros s Hs. rewrite padStart_length.
    pose proof (Z.rem_bound_pos s 60 Hs ltac:(lia)) as Hrem.
    pose proof (at_most_two_digits (Z.rem s 60) ltac:(lia)). lia. }
  split; [ | split].
  - eexists _, _. split; [reflexivity | ]. split; [apply Hss; exact Ha | ].
    rewrite padStart_length. lia.
  - intros Hlt. unfold timer_text.
    rewrite string_length_append. simpl String.length.
    rewrite (Hss a Ha), padStart_length.
    assert (0 <= a / 60 < 100).
    { split; [apply Z.div_pos; lia | apply Z.div_lt_upper_bound; lia]. }
    pose proof (at_most_two_digits (a / 60) ltac:(lia)). lia.
  - unfold timer_text. intros Heq.
    apply append_split in Heq.
    2: { simpl. rewrite (Hss a Ha), (Hss b Hb). reflexivity. }
    destruct Heq as [Hmm Hrest]. inversion Hrest as [Hsecs].
    apply padded_injective in Hmm; [ | apply Z.div_pos; lia ..].
    apply padded_injective in Hsecs;
      [ | apply Z.rem_bound_pos; lia ..].
    rewrite (Z.quot_rem' a 60), (Z.quot_rem' b 60).
    rewrite !Z.quot_div_nonneg by lia. congruence.
Qed.

Lemma X19_witness : String.length (timer_text 754) = 5%nat.
Proof.
  apply (proj1 (proj2 (X19_timer_text_reads_back 754 814
                         ltac:(lia) ltac:(lia)))).
  lia.
Defined.

(** ** The interval *)

Ltac run_popup :=
  cbv [startBtn_click stopBtn_click checkStatus sendMessage
       bind ret throw try_catch gets modify await read_prop].

Lemma single_timer_same (a b : State) :
  intervals a = intervals b ->
  timerInterval a = timerInterval b ->
  single_timer b -> single_timer a.
Proof. unfold single_timer. intros -> ->. exact (fun H => H). Qed.

Lemma clearInterval_frame (id : option nat) (p : State) :
  view (clearInterval id p) = view p /\
  timerInterval (clearInterval id p) = timerInterval p /\
  sent (clearInterval id p) = sent p /\
  backendUrlInput (clearInterval id p) = backendUrlInput p /\
  next_interval (clearInterval id p) = next_interval p.
Proof. destruct id; repeat split. Qed.

Lemma clearInterval_own (p q : State) :
  single_timer p ->
  intervals q = intervals p ->
  intervals (clearInterval (timerInterval p) q) = [].
Proof.
  intros [H | (id & seconds & H & Hti)] Hq.
  - destruct (timerInterval p); simpl; rewrite Hq, H; reflexivity.
  - rewrite Hti. simpl. rewrite Hq, H. simpl. rewrite Nat.eqb_refl.
    reflexivity.
Qed.

Lemma clearInterval_single (id : option nat) (p : State) :
  single_timer p -> single_timer (clearInterval id p).
Proof.
  intros H. destruct id as [i | ]; [ | exact H].
  destruct H as [H | (id & seconds & H & Hti)]; unfold single_timer; simpl;
    rewrite H; simpl.
  - left. reflexivity.
  - destruct (Nat.eqb id i); simpl; [left; reflexivity | right; eauto].
Qed.

Lemma showIdleState_timer (p : State) :
  single_timer p ->
  intervals (showIdleState p) = [] /\
  timerInterval (showIdleState p) = timerInterval p /\
  sent (showIdleState p) = sent p /\
  next_interval (showIdleState p) = next_interval p.
Proof.
  intros H. unfold showIdleState. cbv zeta.
  split; [apply (clearInterval_own p); [exact H | reflexivity] | ].
  match goal with
  | |- context [clearInterval ?id ?q] =>
      destruct (clearInterval_frame id q) as (_ & Hti & Hs & _ & Hn)
  end.
  rewrite Hti, Hs, Hn. repeat split.
Qed.

Lemma showIdleState_view (p : State) :
  view (showIdleState p)
  = mkView "block" "none" "status idle" "Ready to record" "none" "00:00"
           (uploadStatus_textContent (view p))
           (uploadStatus_className (view p)).
Proof.
  unfold showIdleState. cbv zeta.
  rewrite (proj1 (clearInterval_frame _ _)). reflexivity.
Qed.

Lemma startTimerFromElapsed_timer (elapsed : Z) (p : State) :
  single_timer p ->
  intervals (startTimerFromElapsed elapsed p) = [(next_interval p, elapsed)] /\
  timerInterval (startTimerFromElapsed elapsed p) = Some (next_interval p) /\
  timer_textContent (view (startTimerFromElapsed elapsed p))
  = timer_text elapsed.
Proof.
  intros H. unfold startTimerFromElapsed, setInterval_timer. cbv zeta.
  simpl intervals. simpl timerInterval. simpl view.
  rewrite (clearInterval_own p) by (assumption || reflexivity).
  destruct (clearInterval_frame (timerInterval p)
              (updateTimerDisplay elapsed p)) as (Hv & _ & _ & _ & Hn).
  rewrite Hv, Hn. repeat split.
Qed.

Lemma startTimerFromElapsed_view (elapsed : Z) (p : State) :
  view (startTimerFromElapsed elapsed p)
  = view (updateTimerDisplay elapsed p) /\
  sent (startTimerFromElapsed elapsed p) = sent p.
Proof.
  unfold startTimerFromElapsed, setInterval_timer. cbv zeta.
  simpl view. simpl sent.
  destruct (clearInterval_frame (timerInterval p)
              (updateTimerDisplay elapsed p)) as (Hv & _ & Hs & _).
  rewrite Hv, Hs. split; reflexivity.
Qed.

Lemma startTimerFromElapsed_single (elapsed : Z) (p : State) :
  single_timer p -> single_timer (startTimerFromElapsed elapsed p).
Proof.
  intros H.
  destruct (startTimerFromElapsed_timer elapsed p H) as (Hrun & Hti & _).
  right. eauto.
Qed.

Lemma tick_own_timer (id : nat) (seconds : Z) (p : State) :
  intervals p = [(id, seconds)] ->
  intervals (tick id p) = [(id, seconds + 1)] /\
  timerInterval (tick id p) = timerInterval p /\
  timer_textContent (view (tick id p)) = timer_text (seconds + 1).
Proof.
  intros H. unfold tick. rewrite H. simpl. rewrite Nat.eqb_refl.
  repeat split.
Qed.

(** X20: a timer started from a number of seconds shows, after its
    interval has fired [k] times, that number plus [k]; it is then still
    the only interval running, whatever was running before it started. *)
Theorem X20_timer_counts_up (elapsed : Z) (k : nat) (p : State) :
  single_timer p ->
  let p' := Nat.iter k (tick (next_interval p))
                     (startTimerFromElapsed elapsed p) in
  timer_textContent (view p') = timer_text (elapsed + Z.of_nat k) /\
  intervals p' = [(next_interval p, elapsed + Z.of_nat k)] /\
  timerInterval p' = Some (next_interval p).
Proof.
  intros H. cbv zeta.
  destruct (startTimerFromElapsed_timer elapsed p H) as (Hrun & Hti & Htext).
  induction k as [ | k IH].
  - simpl. rewrite Z.add_0_r. repeat split; assumption.
  - destruct IH as (IHtext & IHrun & IHti).
    simpl Nat.iter.
    destruct (tick_own_timer _ _ _ IHrun) as (Hrun' & Hti' & Htext').
    replace (elapsed + Z.of_nat (S k)) with (elapsed + Z.of_nat k + 1) by lia.
    repeat split; [assumption | assumption | ].
    rewrite Hti'. exact IHti.
Qed.

Lemma X20_witness :
  let p := loaded blank "http://localhost:8000" in
  let p' := Nat.iter 3 (tick (next_interval p)) (startTimerFromElapsed 58 p) in
  timer_textContent (view p') = timer_text (58 + Z.of_nat 3) /\
  intervals p' = [(next_interval p, 58 + Z.of_nat 3)] /\
  timerInterval p' = Some (next_interval p).
Proof.
  apply (X20_timer_counts_up 58 3 (loaded blank "http://localhost:8000")).
  left. reflexivity.
Defined.

(** ** The handlers, case by case *)

Lemma stopBtn_click_cases (env : Env) (p : State) :
  exists line className q,
    stopBtn_click env p
    = (Normal tt, set_uploadStatus line className (showIdleState q)) /\
    (className = "upload-status success" \/ className = "upload-status error") /\
    (q = stop_sent p \/ q = showIdleState (stop_sent p)).
Proof.
  run_popup. unfold stop_sent.
  assert (Hurl : backendUrlInput
                   (set_uploadStatus "Processing & uploading..."
                      "upload-status uploading"
                      (set_statusText "Stopping..."
                         (clearInterval (timerInterval p) p)))
                 = backendUrlInput p).
  { simpl. apply clearInterval_frame. }
  rewrite Hurl. clear Hurl.
  destruct (reply env) as [response | e].
  2: { eexists _, _, _. split; [reflexivity | ]. split; [right | left];
       reflexivity. }
  destruct response;
    try (eexists _, _, _; split; [reflexivity | ];
         split; [right | right]; reflexivity);
    (destruct (JS.truthy (JS.prop _ "success"));
     [ | destruct (JS.truthy (JS.prop _ "savedLocally"))]);
    eexists _, _, _; (split; [reflexivity | ]);
    (split; [ | left; reflexivity]); auto.
Qed.

Lemma startBtn_click_cases (env : Env) (p : State) :
  exists line className q,
    startBtn_click env p = (Normal tt, set_uploadStatus line className q) /\
    (q = p \/
     exists tab,
       q = start_sent tab p \/
       q = startTimerFromElapsed 0 (showRecordingState None (start_sent tab p))).
Proof.
  run_popup. unfold start_sent.
  destruct (tabs_query env) as [[ | tab tabs] | e];
    try (eexists _, _, _; split; [reflexivity | left; reflexivity]).
  destruct (reply env) as [response | e];
    [ | eexists _, _, _; split; [reflexivity | right; exists tab; left; reflexivity]].
  destruct response;
    try (eexists _, _, _; split;
         [reflexivity | right; exists tab; left; reflexivity]);
    destruct (JS.truthy (JS.prop _ "success"));
    eexists _, _, _;
    (split; [reflexivity | right; exists tab; auto]).
Qed.

Lemma stop_sent_timer (p : State) :
  single_timer p ->
  intervals (stop_sent p) = [] /\
  timerInterval (stop_sent p) = timerInterval p /\
  sent (stop_sent p)
  = (sent p ++ [stopRecording_message (backendUrlInput p)])%list.
Proof.
  intros H. unfold stop_sent. simpl.
  rewrite (clearInterval_own p p H eq_refl).
  destruct (clearInterval_frame (timerInterval p) p) as (_ & Hti & Hs & _).
  rewrite Hti, Hs. repeat split.
Qed.

Lemma no_interval_single (p : State) : intervals p = [] -> single_timer p.
Proof. intros H. left. exact H. Qed.

Lemma stop_click_ends_idle (env : Env) (p : State) :
  single_timer p ->
  let p' := snd (stopBtn_click env p) in
  fst (stopBtn_click env p) = Normal tt /\
  shows_idle p' /\
  intervals p' = [] /\
  (uploadStatus_className (view p') = "upload-status success" \/
   uploadStatus_className (view p') = "upload-status error") /\
  sent p' = (sent p ++ [stopRecording_message (backendUrlInput p)])%list.
Proof.
  intros H. cbv zeta.
  destruct (stopBtn_click_cases env p) as (line & cls & q & -> & Hcls & Hq).
  destruct (stop_sent_timer p H) as (Hrun & Hti & Hsent).
  pose proof (showIdleState_timer (stop_sent p) (no_interval_single _ Hrun))
    as (Hrun1 & Hti1 & Hsent1 & _).
  assert (Hq' : intervals q = [] /\ sent q = sent (stop_sent p)).
  { destruct Hq as [-> | ->]; split; assumption || reflexivity. }
  destruct Hq' as (Hqrun & Hqsent).
  pose proof (showIdleState_timer q (no_interval_single _ Hqrun))
    as (Hrun2 & _ & Hsent2 & _).
  simpl fst. simpl snd. unfold shows_idle. simpl.
  rewrite showIdleState_view. simpl.
  rewrite Hrun2, Hsent2, Hqsent, Hsent.
  repeat split. exact Hcls.
Qed.

Lemma showRecordingState_timer (elapsed : option Z) (p : State) :
  single_timer p -> single_timer (showRecordingState elapsed p).
Proof. apply single_timer_same; reflexivity. Qed.

Lemma start_sent_timer (tab : Z) (p : State) :
  single_timer p -> single_timer (start_sent tab p).
Proof. apply single_timer_same; reflexivity. Qed.

Lemma set_uploadStatus_frame (line className : string) (p : State) :
  view (set_uploadStatus line className p)
  = mkView (startBtn_display (view p)) (stopBtn_display (view p))
           (statusBox_className (view p)) (statusText (view p))
           (timer_display (view p)) (timer_textContent (view p))
           line className /\
  intervals (set_uploadStatus line className p) = intervals p /\
  timerInterval (set_uploadStatus line className p) = timerInterval p /\
  sent (set_uploadStatus line className p) = sent p.
Proof. repeat split. Qed.

Lemma set_uploadStatus_timer (line className : string) (p : State) :
  single_timer p -> single_timer (set_uploadStatus line className p).
Proof. apply single_timer_same; reflexivity. Qed.

Lemma post_timer (message : JS.value) (p : State) :
  single_timer p -> single_timer (post message p).
Proof. apply single_timer_same; reflexivity. Qed.

Lemma handle_single_timer (input : Input) (env : Env) (p : State) :
  single_timer p -> single_timer (handle input env p).
Proof.
  intros H. destruct input as [ | | | id' | url']; simpl.
  - run_popup.
    destruct (status_reply env) as [[ | [ | ] elapsed] | e]; simpl.
    + apply no_interval_single, showIdleState_timer, post_timer, H.
    + apply startTimerFromElapsed_single, showRecordingState_timer,
        post_timer, H.
    + apply no_interval_single, showIdleState_timer, post_timer, H.
    + apply post_timer, H.
  - destruct (startBtn_click_cases env p)
      as (line & cls & q & -> & [-> | (tab & [-> | ->])]); simpl snd;
      apply set_uploadStatus_timer.
    + exact H.
    + apply start_sent_timer, H.
    + apply startTimerFromElapsed_single, showRecordingState_timer,
        start_sent_timer, H.
  - apply no_interval_single. apply (stop_click_ends_idle env p H).
  - unfold tick.
    destruct H as [H | (id & seconds & H & Hti)]; rewrite H; simpl.
    + left. reflexivity.
    + destruct (Nat.eqb id id'); simpl; right; exists id; eexists;
        (split; [reflexivity | exact Hti]).
  - exact H.
Qed.

(** X21: in a popup, from the moment its page is loaded, at most one
    interval is ever running, and it is the one the [timerInterval]
    variable names: opening, starting, stopping and the replies and
    faults that go with them never leave a second timer counting. *)
Theorem X21_at_most_one_timer (p : State) :
  reachable p ->
  (List.length (intervals p) <= 1)%nat /\
  (forall id seconds,
     In (id, seconds) (intervals p) -> timerInterval p = Some id).
Proof.
  intros (v & url & script & <-).
  assert (H : single_timer (run script (loaded v url))).
  { assert (Hinit : single_timer (loaded v url)) by (left; reflexivity).
    revert Hinit. generalize (loaded v url).
    induction script as [ | [input env] rest IH]; intros p Hp; simpl.
    - exact Hp.
    - apply IH, handle_single_timer, Hp. }
  destruct H as [H | (id & seconds & H & Hti)]; rewrite H; simpl.
  - split; [lia | intros ? ? []].
  - split; [lia | ].
    intros id' seconds' [[= <- <-] | []]. exact Hti.
Qed.

Lemma X21_witness :
  let p := run [(Opened, mkEnv (Resolved [7]) (Resolved success_only)
                               (Resolved (Status true 12)));
                (ClickStart, answers success_only);
                (Tick 1, answers success_only)]
               (loaded blank "http://localhost:8000") in
  (List.length (intervals p) <= 1)%nat /\
  (forall id seconds,
     In (id, seconds) (intervals p) -> timerInterval p = Some id).
Proof.
  apply (X21_at_most_one_timer
           (run [(Opened, mkEnv (Resolved [7]) (Resolved success_only)
                                (Resolved (Status true 12)));
                 (ClickStart, answers success_only);
                 (Tick 1, answers success_only)]
                (loaded blank "http://localhost:8000"))).
  eexists _, _, _. reflexivity.
Defined.

(** ** The buttons *)

(** X22: however the stop command fares (an answer of any shape, no
    answer, a rejected message), the stop button's handler completes
    and leaves the popup showing the idle state with no interval running
    and a status line that is no longer the one shown while uploading;
    it has sent exactly one message, the stop command carrying the URL
    in the field. *)
Theorem X22_stop_click_always_ends_idle (env : Env) (p : State) :
  single_timer p ->
  let p' := snd (stopBtn_click env p) in
  fst (stopBtn_click env p) = Normal tt /\
  shows_idle p' /\
  intervals p' = [] /\
  (uploadStatus_className (view p') = "upload-status success" \/
   uploadStatus_className (view p') = "upload-status error") /\
  sent p' = (sent p ++ [stopRecording_message (backendUrlInput p)])%list.
Proof.
  intros H. cbv zeta.
  destruct (stopBtn_click_cases env p) as (line & cls & q & -> & Hcls & Hq).
  destruct (stop_sent_timer p H) as (Hrun & Hti & Hsent).
  pose proof (showIdleState_timer (stop_sent p) (no_interval_single _ Hrun))
    as (Hrun1 & Hti1 & Hsent1 & _).
  assert (Hq' : intervals q = [] /\ sent q = sent (stop_sent p)).
  { destruct Hq as [-> | ->]; split; assumption || reflexivity. }
  destruct Hq' as (Hqrun & Hqsent).
  pose proof (showIdleState_timer q (no_interval_single _ Hqrun))
    as (Hrun2 & _ & Hsent2 & _).
  simpl fst. simpl snd. unfold shows_idle. simpl.
  rewrite showIdleState_view. simpl.
  rewrite Hrun2, Hsent2, Hqsent, Hsent.
  repeat split. exact Hcls.
Qed.

Lemma X22_witness :
  let p := startTimerFromElapsed 0 (loaded blank "http://localhost:8000") in
  let p' := snd (stopBtn_click (answers JS.VUndefined) p) in
  fst (stopBtn_click (answers JS.VUndefined) p) = Normal tt /\
  shows_idle p' /\
  intervals p' = [] /\
  (uploadStatus_className (view p') = "upload-status success" \/
   uploadStatus_className (view p') = "upload-status error") /\
  sent p' = (sent p ++ [stopRecording_message (backendUrlInput p)])%list.
Proof.
  apply (X22_stop_click_always_ends_idle
           (answers JS.VUndefined)
           (startTimerFromElapsed 0 (loaded blank "http://localhost:8000"))).
  right. eexists _, _. split; reflexivity.
Defined.

(** X23: what the status line reads after the stop button's handler:
    the error of a rejected message or of a [{success: false, error}]
    answer after [Error: ]; [Upload failed - saved locally] for the
    worker's fallback answer, whose own error is not shown; the file
    name after [Uploaded! Processing ] for a successful answer that
    names one, and the word [undefined] in its place for one that does
    not. *)
Theorem X23_stop_click_status_line (env : Env) (p : State) :
  let line := uploadStatus_textContent (view (snd (stopBtn_click env p))) in
  match reply env with
  | Rejected e => line = "Error: " ++ e
  | Resolved r =>
      (forall e, r = failure e -> line = "Error: " ++ e) /\
      (forall e, r = Offscreen.saved_locally e ->
                 line = "Upload failed - saved locally") /\
      (forall name,
         r = JS.VObj [("success", JS.VBool true); ("filename", JS.VStr name)] ->
         line = "Uploaded! Processing " ++ name) /\
      (r = success_only -> line = "Uploaded! Processing undefined")
  end.
Proof.
  run_popup.
  destruct (reply env) as [r | e]; [ | reflexivity].
  repeat split; intros; subst r; reflexivity.
Qed.

Lemma X23_witness :
  uploadStatus_textContent
    (view (snd (stopBtn_click (answers (failure "Not recording"))
                  (loaded blank "http://localhost:8000"))))
  = "Error: Not recording".
Proof.
  apply (proj1 (X23_stop_click_status_line
                  (answers (failure "Not recording"))
                  (loaded blank "http://localhost:8000"))
           "Not recording").
  reflexivity.
Defined.

Lemma startBtn_click_success
    (env : Env) (p : State) (tab : Z) (tabs : list Z) (r : JS.value) :
  tabs_query env = Resolved (tab :: tabs) ->
  reply env = Resolved r ->
  JS.truthy (JS.prop r "success") = true ->
  startBtn_click env p
  = (Normal tt,
     set_uploadStatus "Recording! You can close this popup."
       "upload-status success"
       (startTimerFromElapsed 0 (showRecordingState None (start_sent tab p)))).
Proof.
  intros Htabs Hreply Hok. run_popup. rewrite Htabs, Hreply.
  destruct r; simpl in Hok; try discriminate.
  cbv beta iota. unfold JS.prop. fold (JS.prop (JS.VObj props) "success").
  change (match JS.lookup "success" props with
          | Some x => x
          | None => JS.VUndefined
          end) with (JS.prop (JS.VObj props) "success") in Hok.
  rewrite Hok. reflexivity.
Qed.

(** X24: the start button's handler.  With no active tab it reports
    [Error: No active tab] and sends nothing; otherwise it sends one
    start command for the first tab found.  A [{success: false, error}]
    answer is reported after [Error: ] and no timer is started; an
    answer truthy on [success] switches the popup to the recording
    state with the timer at 00:00 and one interval counting from 0. *)
Theorem X24_start_click (env : Env) (p : State) :
  single_timer p ->
  let p' := snd (startBtn_click env p) in
  (tabs_query env = Resolved [] ->
   p' = set_uploadStatus "Error: No active tab" "upload-status error" p) /\
  (forall tab tabs e,
     tabs_query env = Resolved (tab :: tabs) ->
     reply env = Resolved (failure e) ->
     p' = set_uploadStatus ("Error: " ++ e) "upload-status error"
            (post (startRecording_message tab) p)) /\
  (forall tab tabs r,
     tabs_query env = Resolved (tab :: tabs) ->
     reply env = Resolved r ->
     JS.truthy (JS.prop r "success") = true ->
     view p' = mkView "none" "block" "status recording" "Recording..."
                      "block" "00:00" "Recording! You can close this popup."
                      "upload-status success" /\
     intervals p' = [(next_interval p, 0)] /\
     timerInterval p' = Some (next_interval p) /\
     sent p' = (sent p ++ [startRecording_message tab])%list).
Proof.
  intros H. cbv zeta. split; [ | split].
  - intros Htabs. run_popup. rewrite Htabs. reflexivity.
  - intros tab tabs e Htabs Hreply. run_popup. rewrite Htabs, Hreply.
    reflexivity.
  - intros tab tabs r Htabs Hreply Hok.
    rewrite (startBtn_click_success env p tab tabs r) by assumption.
    simpl snd.
    assert (Hs : single_timer (showRecordingState None (start_sent tab p))).
    { apply showRecordingState_timer, start_sent_timer, H. }
    destruct (startTimerFromElapsed_timer 0 _ Hs) as (Hrun & Hti & _).
    destruct (startTimerFromElapsed_view
                0 (showRecordingState None (start_sent tab p)))
      as (Hview & Hsent).
    destruct (set_uploadStatus_frame
                "Recording! You can close this popup." "upload-status success"
                (startTimerFromElapsed 0
                   (showRecordingState None (start_sent tab p))))
      as (Hv & Hi & Ht & Hm).
    rewrite Hv, Hi, Ht, Hm, Hview, Hrun, Hti, Hsent. repeat split.
Qed.

Lemma X24_witness :
  let p := loaded blank "http://localhost:8000" in
  let p' := snd (startBtn_click (answers success_only) p) in
  view p' = mkView "none" "block" "status recording" "Recording..."
                   "block" "00:00" "Recording! You can close this popup."
                   "upload-status success" /\
  intervals p' = [(next_interval p, 0)] /\
  timerInterval p' = Some (next_interval p) /\
  sent p' = (sent p ++ [startRecording_message 7])%list.
Proof.
  apply (proj2 (proj2 (X24_start_click
                         (answers success_only)
                         (loaded blank "http://localhost:8000")
                         (or_introl eq_refl)))
           7 [] success_only);
    reflexivity.
Defined.

(** ** The popup and the coordinator *)

Lemma checkStatus_recording (env : Env) (p : State) (elapsed : Z) :
  status_reply env = Resolved (Status true elapsed) ->
  checkStatus env p
  = (Normal tt,
     startTimerFromElapsed elapsed
       (showRecordingState (Some elapsed) (post getStatus_message p))).
Proof. intros Hstatus. run_popup. rewrite Hstatus. reflexivity. Qed.

Lemma checkStatus_idle (env : Env) (p : State) (elapsed : Z) :
  status_reply env = Resolved (Status false elapsed) ->
  checkStatus env p = (Normal tt, showIdleState (post getStatus_message p)).
Proof. intros Hstatus. run_popup. rewrite Hstatus. reflexivity. Qed.

Lemma checkStatus_shows_recording (env : Env) (p : State) (elapsed : Z) :
  status_reply env = Resolved (Status true elapsed) ->
  statusText (view (snd (checkStatus env p))) = "Recording..." /\
  stopBtn_display (view (snd (checkStatus env p))) = "block" /\
  startBtn_display (view (snd (checkStatus env p))) = "none" /\
  timer_textContent (view (snd (checkStatus env p))) = timer_text elapsed.
Proof.
  intros Hstatus. rewrite (checkStatus_recording env p elapsed Hstatus).
  simpl snd.
  rewrite (proj1 (startTimerFromElapsed_view elapsed _)).
  repeat split.
Qed.

(** X25: a popup opened on the coordinator's status reply shows what the
    coordinator holds: with a session active, the recording state with
    the timer at the elapsed seconds the coordinator computed and one
    interval counting on from there; with none, the idle state and no
    interval. *)
Theorem X25_opened_popup_shows_coordinator_status
    (w : Background.World) (benv : Background.Env) (r : JS.value)
    (env : Env) (p : State) :
  single_timer p ->
  fst (Background.onMessage Background.GetStatus benv w) = Some r ->
  status_reply env = Resolved (decode_status r) ->
  let p' := snd (checkStatus env p) in
  let elapsed := Background.elapsed (Background.session w)
                                    (Background.now benv) in
  if Background.isRecording (Background.session w)
  then statusText (view p') = "Recording..." /\
       stopBtn_display (view p') = "block" /\
       startBtn_display (view p') = "none" /\
       timer_textContent (view p') = timer_text elapsed /\
       intervals p' = [(next_interval p, elapsed)]
  else shows_idle p' /\ intervals p' = [].
Proof.
  intros H Hr Hstatus. cbv zeta.
  unfold Background.onMessage, Background.getStatus, bind, gets, ret in Hr.
  simpl in Hr. inversion Hr; subst r. clear Hr.
  unfold decode_status in Hstatus. simpl in Hstatus.
  assert (Hp : single_timer (post getStatus_message p)) by (apply post_timer, H).
  destruct (Background.isRecording (Background.session w)).
  - destruct (checkStatus_shows_recording env p _ Hstatus)
      as (H1 & H2 & H3 & H4).
    repeat split; try assumption.
    rewrite (checkStatus_recording env p _ Hstatus). simpl snd.
    apply (startTimerFromElapsed_timer
             _ (showRecordingState _ (post getStatus_message p))).
    apply showRecordingState_timer, Hp.
  - rewrite (checkStatus_idle env p _ Hstatus). simpl snd.
    unfold shows_idle. rewrite showIdleState_view. simpl.
    repeat split. apply showIdleState_timer, Hp.
Qed.

Lemma X25_witness :
  let p' := snd (checkStatus
                   (mkEnv (Resolved [7]) (Resolved success_only)
                          (Resolved (Status true 5)))
                   (loaded blank "http://localhost:8000")) in
  statusText (view p') = "Recording..." /\
  stopBtn_display (view p') = "block" /\
  startBtn_display (view p') = "none" /\
  timer_textContent (view p') = "00:05" /\
  intervals p' = [(0%nat, 5)].
Proof.
  apply (X25_opened_popup_shows_coordinator_status
           (Background.recording_since 1000)
           (Background.calm 6999 (Resolved success_only))
           (JS.VObj [("isRecording", JS.VBool true);
                     ("recordingTabId", JS.VNum 7);
                     ("startTime", JS.VNum 1000);
                     ("elapsed", JS.VNum 5)])
           (mkEnv (Resolved [7]) (Resolved success_only)
                  (Resolved (Status true 5)))
           (loaded blank "http://localhost:8000"));
    [left | | ]; reflexivity.
Defined.

Lemma stop_click_failure_line (env : Env) (p : State) (e : string) :
  reply env = Resolved (failure e) ->
  uploadStatus_textContent (view (snd (stopBtn_click env p))) = "Error: " ++ e.
Proof. intros Hreply. run_popup. rewrite Hreply. reflexivity. Qed.

(** X26: when the coordinator's stop command is rejected while a
    session is active, the popup that asked for the stop shows the idle
    state with the error, while the coordinator still holds the session;
    a popup opened afterwards on the coordinator's status shows the
    recording state again. *)
Theorem X26_popup_and_coordinator_part_after_rejected_stop
    (w : Background.World) (benv benv' : Background.Env) (e : string)
    (env env' : Env) (p : State) (r r' : JS.value) :
  single_timer p ->
  Background.isRecording (Background.session w) = true ->
  Background.reply benv = Rejected e ->
  let stop := Background.StopRecording (backendUrlInput p) in
  let w' := snd (Background.onMessage stop benv w) in
  fst (Background.onMessage stop benv w) = Some r ->
  reply env = Resolved r ->
  fst (Background.onMessage Background.GetStatus benv' w') = Some r' ->
  status_reply env' = Resolved (decode_status r') ->
  let p1 := snd (stopBtn_click env p) in
  let p2 := snd (checkStatus env' p1) in
  shows_idle p1 /\
  uploadStatus_textContent (view p1) = "Error: " ++ e /\
  Background.isRecording (Background.session w') = true /\
  statusText (view p2) = "Recording..." /\
  stopBtn_display (view p2) = "block".
Proof.
  intros H Hactive Hreject stop w'.
  assert (Hstop : Background.onMessage stop benv w
                  = (Some (failure e),
                     Background.post
                       (Background.stopCapture_message (backendUrlInput p)) w)).
  { unfold stop, Background.onMessage.
    rewrite (stopRecording_delegation_rejected _ e benv w) by assumption.
    reflexivity. }
  unfold w'. rewrite Hstop. simpl fst. simpl snd.
  intros Hr Hreply Hr' Hstatus.
  inversion Hr; subst r. clear Hr.
  rewrite Hactive in Hr'. inversion Hr'; subst r'. clear Hr'.
  unfold decode_status in Hstatus. simpl in Hstatus.
  split; [ | split; [ | split; [exact Hactive | ]]].
  - apply (stop_click_ends_idle env p H).
  - apply stop_click_failure_line. exact Hreply.
  - destruct (checkStatus_shows_recording
                env' (snd (stopBtn_click env p)) _ Hstatus)
      as (H1 & H2 & _).
    split; assumption.
Qed.

Lemma X26_witness :
  let p := startTimerFromElapsed 0 (loaded blank "http://localhost:8000") in
  let benv := Background.calm 9000 (Rejected "Receiving end does not exist.") in
  let w' := snd (Background.onMessage
                   (Background.StopRecording "http://localhost:8000") benv
                   (Background.recording_since 1000)) in
  let p1 := snd (stopBtn_click
                   (answers (failure "Receiving end does not exist.")) p) in
  let p2 := snd (checkStatus
                   (mkEnv (Resolved [7]) (Resolved success_only)
                          (Resolved (Status true 8))) p1) in
  shows_idle p1 /\
  uploadStatus_textContent (view p1)
  = "Error: Receiving end does not exist." /\
  Background.isRecording (Background.session w') = true /\
  statusText (view p2) = "Recording..." /\
  stopBtn_display (view p2) = "block".
Proof.
  apply (X26_popup_and_coordinator_part_after_rejected_stop
           (Background.recording_since 1000)
           (Background.calm 9000 (Rejected "Receiving end does not exist."))
           (Background.calm 9500 (Resolved success_only))
           "Receiving end does not exist."
           (answers (failure "Receiving end does not exist."))
           (mkEnv (Resolved [7]) (Resolved success_only)
                  (Resolved (Status true 8)))
           (startTimerFromElapsed 0 (loaded blank "http://localhost:8000"))
           (failure "Receiving end does not exist.")
           (JS.VObj [("isRecording", JS.VBool true);
                     ("recordingTabId", JS.VNum 7);
                     ("startTime", JS.VNum 1000);
                     ("elapsed", JS.VNum 8)])).
  - right. eexists _, _. split; reflexivity.
  - reflexivity.
  - reflexivity.
  - reflexivity.
  - reflexivity.
  - reflexivity.
  - reflexivity.
Defined.

(** ** The page text sent to the chat *)

Lemma substring_prefix (n : nat) :
  forall s,
    String.length (String.substring 0 n s) = Nat.min n (String.length s) /\
    exists rest, s = String.substring 0 n s ++ rest.
Proof.
  induction n as [ | n IH]; intros [ | c s]; simpl.
  - split; [reflexivity | exists ""; reflexivity].
  - split; [reflexivity | exists (String c s); reflexivity].
  - split; [reflexivity | exists ""; reflexivity].
  - destruct (IH s) as (Hlen & rest & Hrest).
    split; [rewrite Hlen; reflexivity | ].
    exists rest. rewrite <- Hrest. reflexivity.
Qed.

(** X27: the page text handed to the chat is never longer than 8015
    characters: a text of at most 8000 characters is passed as it is, and
    a longer one is cut to its first 8000 characters followed by the
    15-character mark [... [truncated]]. *)
Theorem X27_page_content_is_bounded (text : string) :
  let len (s : string) := Z.of_nat (String.length s) in
  len (limit_content text) <= 8015 /\
  (len text <= 8000 -> limit_content text = text) /\
  (8000 < len text ->
   len (limit_content text) = 8015 /\
   exists head rest,
     len head = 8000 /\
     text = head ++ rest /\
     limit_content text = head ++ "... [truncated]").
Proof.
  cbv zeta. unfold limit_content.
  destruct (substring_prefix (Z.to_nat 8000) text) as (Hlen & rest & Hrest).
  destruct (Z.ltb_spec 8000 (Z.of_nat (String.length text))) as [Hlong | Hshort].
  - assert (Hhead : Z.of_nat (String.length
                                (String.substring 0 (Z.to_nat 8000) text))
                    = 8000) by lia.
    assert (Hcut : Z.of_nat (String.length
                               (String.substring 0 (Z.to_nat 8000) text
                                ++ "... [truncated]")) = 8015).
    { rewrite string_length_append, Nat2Z.inj_add, Hhead. reflexivity. }
    split; [lia | ]. split; [lia | ].
    intros _. split; [exact Hcut | ].
    exists (String.substring 0 (Z.to_nat 8000) text), rest.
    repeat split; assumption.
  - split; [lia | ]. split; [reflexivity | lia].
Qed.

Lemma X27_witness : limit_content "Feed" = "Feed".
Proof.
  apply (proj1 (proj2 (X27_page_content_is_bounded "Feed"))).
  simpl. lia.
Defined.

End PopupProperties.
